(** * qibo: the symbolic circuit model and the initial-state gradient

    A shallow embedding of
    - [src/qibo/base/circuit.py] (class [BaseCircuit]) and
    - [qibo/tensorflow/custom_operators/python/ops/qibo_tf_custom_operators_grads.py]
      (function [_initial_state_grad]),
    followed by the properties of the circuit model that were checked
    against it.

    Python objects are mutable and shared: a gate object added to a circuit
    is the very object the caller holds, and [add] writes into it.  Gate
    objects therefore live in a store indexed by references; a circuit's
    [queue] and [measurement_gate] hold references.  Exceptions are values:
    a computation returns either [Ok] or [Raise], together with the store as
    it stands at that point. *)

From Stdlib Require Import ZArith String Ascii List Lia.
From stdpp Require Import base decidable option list gmap strings pretty functions.

Open Scope Z_scope.

(** ** Python values that the code only inspects for [None] *)

(** The value of an attribute such as [_final_state], of which the circuit
    model only ever asks [is not None]. *)
Inductive pyobj := PyNone | PyObject.

Definition is_not_None (v : pyobj) : bool :=
  match v with PyNone => false | PyObject => true end.

(** [str(n)] of a Python integer, as produced by [format] and by f-strings. *)
Definition str (n : Z) : string := pretty n.

(** ** Exceptions

    One constructor per raise site of the two source files, plus the
    exceptions the interpreter itself raises on the paths the code takes
    (a missing attribute, an unbound name, an index out of range).  The
    comment of each constructor gives the Python class, the source line and,
    where the specification names the error, that name. *)
Inductive exn :=
  | AttributeError (attr : string)
      (* reading an attribute the instance does not have *)
  | NameError (name : string)
      (* reading a name bound neither locally nor globally *)
  | IndexError
      (* [ids[i]] with [i] out of range *)
  | RuntimeError_executed
      (* circuit.py:85, "Cannot add gates to a circuit after it is executed."
         (FrozenCircuitError) *)
  | ValueError_nqubits (gate_nqubits circuit_nqubits : Z)
      (* circuit.py:92, "Attempting to add gate with {} total qubits to a
         circuit with {} qubits." (QubitCountMismatchError) *)
  | ValueError_measured (qubit : Z)
      (* circuit.py:74, "Cannot reuse qubit {} because it is already measured"
         (MeasuredQubitReuseError) *)
  | ValueError_addition (nqubits1 nqubits2 : Z)
      (* circuit.py:54, "Cannot add circuits with different number of
         qubits. ..." (QubitCountMismatchError) *)
  | KeyError_register (name : string).
      (* circuit.py:115, "Register name {} has already been used."
         (DuplicateRegisterNameError) *)

(** The error kinds of the specification (section 7). *)
Inductive error_kind :=
  | FrozenCircuitError
  | QubitCountMismatchError
  | MeasuredQubitReuseError
  | DuplicateRegisterNameError.

Definition kind_of (e : exn) : option error_kind :=
  match e with
  | RuntimeError_executed => Some FrozenCircuitError
  | ValueError_nqubits _ _ | ValueError_addition _ _ => Some QubitCountMismatchError
  | ValueError_measured _ => Some MeasuredQubitReuseError
  | KeyError_register _ => Some DuplicateRegisterNameError
  | AttributeError _ | NameError _ | IndexError => None
  end.

Inductive Result (A : Type) :=
  | Ok (a : A)
  | Raise (e : exn).
Arguments Ok {A} a.
Arguments Raise {A} e.

(** ** Gates

    The class [Gate] is not part of the two source files; the circuit model
    uses the attributes below. *)
Module Gate.

(** Modelled from the spec: the [Gate] class (qibo/base/gates.py) is
    missing from the sources.  Section 2 and section 6 of the
    specification give a gate its name (the kind tag: a measurement gate
    is named "measure"), its ordered target qubits, its optional control
    qubits, a total qubit count that is unset until a circuit fills it
    in, a register name (measurement gates; unset until the circuit
    names it) and the capability [gate2qasm()] returning an opcode and
    operand qubit indices. *)
Record t := mk {
  name : string;
  control_qubits : list Z;
  target_qubits : list Z;
  _nqubits : option Z;
  register_name : option string;
  gate2qasm : string * list Z
}.

(** Modelled from the spec: the property [qubits] of the missing class.
    [_check_measured] documents its argument as "the qubits that a gate
    acts" on: the control qubits followed by the target qubits. *)
Definition qubits (g : t) : list Z := control_qubits g ++ target_qubits g.

(** Modelled from the spec: the setter of the property [nqubits] of the
    missing class ("settable exactly once"); [add] calls it only when
    [_nqubits] is [None]. *)
Definition set_nqubits (n : Z) (g : t) : t :=
  mk (name g) (control_qubits g) (target_qubits g) (Some n)
     (register_name g) (gate2qasm g).

Definition set_register_name (r : string) (g : t) : t :=
  mk (name g) (control_qubits g) (target_qubits g) (_nqubits g)
     (Some r) (gate2qasm g).

(** The union of section 4.2: "preserving first-seen order then appended
    new qubits". *)
Fixpoint union_ordered (old new : list Z) : list Z :=
  match new with
  | [] => old
  | q :: new' =>
      union_ordered (if bool_decide (q ∈ old) then old else old ++ [q]) new'
  end.

(** Modelled from the spec: the method [_add] of the missing measurement
    gate class, which merges further target qubits into the gate. *)
Definition _add (new_qubits : list Z) (g : t) : t :=
  mk (name g) (control_qubits g) (union_ordered (target_qubits g) new_qubits)
     (_nqubits g) (register_name g) (gate2qasm g).

End Gate.

(** References to gate objects, and the store they live in.  Every
    reference denotes an object, as in Python. *)
Definition ref := nat.
Abbreviation Store := (ref -> Gate.t).

(** ** Circuits *)

(** A value of [measurement_sets]: the first registration stores
    [set(gate.target_qubits)], later ones the tuple itself. *)
Inductive qubit_view :=
  | QSet (s : gset Z)
  | QTuple (t : list Z).

(** The instance attributes of a circuit.  [_final_state] is [None] here
    when the instance does not have the attribute at all. *)
Record Circuit := mkCircuit {
  nqubits : Z;
  queue : list ref;
  is_executed : bool;
  measurement_sets : gmap string qubit_view;
  measurement_gate : option ref;
  measurement_gate_result : pyobj;
  _final_state : option pyobj
}.

Definition set_queue (q : list ref) (c : Circuit) : Circuit :=
  mkCircuit (nqubits c) q (is_executed c) (measurement_sets c)
            (measurement_gate c) (measurement_gate_result c) (_final_state c).

Definition set_is_executed (b : bool) (c : Circuit) : Circuit :=
  mkCircuit (nqubits c) (queue c) b (measurement_sets c)
            (measurement_gate c) (measurement_gate_result c) (_final_state c).

Definition set_measurement_sets (m : gmap string qubit_view) (c : Circuit) : Circuit :=
  mkCircuit (nqubits c) (queue c) (is_executed c) m
            (measurement_gate c) (measurement_gate_result c) (_final_state c).

Definition set_measurement_gate (g : option ref) (c : Circuit) : Circuit :=
  mkCircuit (nqubits c) (queue c) (is_executed c) (measurement_sets c)
            g (measurement_gate_result c) (_final_state c).

Definition set_final_state (v : option pyobj) (c : Circuit) : Circuit :=
  mkCircuit (nqubits c) (queue c) (is_executed c) (measurement_sets c)
            (measurement_gate c) (measurement_gate_result c) v.

(** ** The state of a method call: the circuit [self] and the gate store *)
Record World := mkWorld {
  self : Circuit;
  gates : Store
}.

Definition Py (A : Type) : Type := World -> Result A * World.

Definition ret {A} (a : A) : Py A := fun w => (Ok a, w).

Definition bind {A B} (m : Py A) (k : A -> Py B) : Py B :=
  fun w =>
    match m w with
    | (Ok a, w') => k a w'
    | (Raise e, w') => (Raise e, w')
    end.

Definition raise {A} (e : exn) : Py A := fun w => (Raise e, w).

Declare Scope py_scope.
Delimit Scope py_scope with py.
Notation "'let!' x ':=' m 'in' k" := (bind m (fun x => k))
  (at level 10, x name, m at level 100, k at level 200) : py_scope.
Notation "m '>>' k" := (bind m (fun _ => k))
  (at level 95, right associativity) : py_scope.

(** Reads and writes of [self] and of gate objects. *)
Definition get_self : Py Circuit := fun w => (Ok (self w), w).

Definition modify_self (f : Circuit -> Circuit) : Py unit :=
  fun w => (Ok tt, mkWorld (f (self w)) (gates w)).

Definition read (g : ref) : Py Gate.t := fun w => (Ok (gates w g), w).

Definition modify (g : ref) (f : Gate.t -> Gate.t) : Py unit :=
  fun w => (Ok tt, mkWorld (self w) (<[g := f (gates w g)]> (gates w))).

(** [for x in l: body(x)] *)
Fixpoint for_each {A} (body : A -> Py unit) (l : list A) : Py unit :=
  match l with
  | [] => ret tt
  | x :: l' => (body x >> for_each body l')%py
  end.

(** [l[i]] for a Python list and a non-negative literal index. *)
Definition index {A} (l : list A) (i : nat) : Py A :=
  match l !! i with
  | Some x => ret x
  | None => raise IndexError
  end.

(** Reading a name that is bound nowhere. *)
Definition unbound {A} (name : string) : Py A := raise (NameError name).

(** ** class BaseCircuit *)
Module BaseCircuit.

(** [__init__]: the attributes a fresh instance gets.  [_final_state] is
    not among them. *)
Definition __init__ (nqubits : Z) : Circuit :=
  {| nqubits := nqubits;
     queue := [];
     is_executed := false;
     measurement_sets := ∅;
     measurement_gate := None;
     measurement_gate_result := PyNone;
     _final_state := None |}.

(** The constructor of a class deriving from [BaseCircuit] that calls
    [BaseCircuit.__init__] and then binds [_final_state] to [v]. *)
Definition derived__init__ (v : pyobj) (nqubits : Z) : Circuit :=
  set_final_state (Some v) (__init__ nqubits).

(** [self._final_state]: an attribute read, which fails on an instance
    that does not have the attribute. *)
Definition get_final_state : Py pyobj :=
  (let! c := get_self in
   match _final_state c with
   | Some v => ret v
   | None => raise (AttributeError "_final_state")
   end)%py.

Fixpoint _check_measured (gate_qubits : list Z) : Py unit :=
  match gate_qubits with
  | [] => ret tt
  | qubit :: rest =>
      (let! c := get_self in
       match measurement_gate c with
       | Some mg =>
           let! m := read mg in
           if bool_decide (qubit ∈ Gate.target_qubits m)
           then raise (ValueError_measured qubit)
           else _check_measured rest
       | None => _check_measured rest
       end)%py
  end.

Definition _add_measurement (gate : ref) : Py unit :=
  (let! g := read gate in
   let! c := get_self in
   let! name :=
     match Gate.register_name g with
     | None =>
         let name := "Register" +:+ str (Z.of_nat (size (measurement_sets c))) in
         modify gate (Gate.set_register_name name) >> ret name
     | Some name =>
         if bool_decide (is_Some (measurement_sets c !! name))
         then raise (KeyError_register name)
         else ret name
     end in
   let! c := get_self in
   match measurement_gate c with
   | None =>
       modify_self (set_measurement_gate (Some gate)) >>
       let! g := read gate in
       modify_self (fun c =>
         set_measurement_sets
           (<[name := QSet (list_to_set (Gate.target_qubits g))]> (measurement_sets c)) c)
   | Some mg =>
       let! g := read gate in
       modify mg (Gate._add (Gate.target_qubits g)) >>
       let! g := read gate in
       modify_self (fun c =>
         set_measurement_sets
           (<[name := QTuple (Gate.target_qubits g)]> (measurement_sets c)) c)
   end)%py.

Definition add (gate : ref) : Py unit :=
  (let! fs := get_final_state in
   (if is_not_None fs then raise RuntimeError_executed else ret tt) >>
   let! g := read gate in
   let! c := get_self in
   match Gate._nqubits g with
   | None => modify gate (Gate.set_nqubits (nqubits c))
   | Some n =>
       if bool_decide (n ≠ nqubits c)
       then raise (ValueError_nqubits n (nqubits c))
       else ret tt
   end >>
   let! g := read gate in
   _check_measured (Gate.qubits g) >>
   let! g := read gate in
   if bool_decide (Gate.name g = "measure")
   then _add_measurement gate
   else modify_self (fun c => set_queue (queue c ++ [gate]) c))%py.

(** [cls] is the class the method is called on, given by its constructor.
    The two operands are distinct from the fresh circuit, so their queues
    are not changed while they are iterated. *)
Definition _circuit_addition (cls : Z -> Circuit) (c1 c2 : Circuit)
    (store : Store) : Result Circuit * Store :=
  if bool_decide (nqubits c1 ≠ nqubits c2)
  then (Raise (ValueError_addition (nqubits c1) (nqubits c2)), store)
  else
    let newcircuit := cls (nqubits c1) in
    match (for_each add (queue c1) >> for_each add (queue c2))%py
            (mkWorld newcircuit store) with
    | (Ok _, w) => (Ok (self w), gates w)
    | (Raise e, w) => (Raise e, gates w)
    end.

Definition __add__ (self circuit : Circuit) (store : Store)
    : Result Circuit * Store :=
  _circuit_addition __init__ self circuit store.

Definition size (c : Circuit) : Z := nqubits c.

Definition depth (c : Circuit) : nat := length (queue c).

(** The newline and the double quote of the source's string literals. *)
Definition nl : string := String "010" "".
Definition dquote : string := String "034" "".

(** [code += s] for a list [code] and a string [s] extends the list with
    the characters of [s], one element each. *)
Definition chars (s : string) : list string :=
  (fun c => String c "") <$> list_ascii_of_string s.

(** [code.insert(i, x)] *)
Definition list_insert_at {A} (i : nat) (x : A) (l : list A) : list A :=
  take i l ++ x :: drop i l.

(** The body of the loop of [to_qasm], on the local variables [code] and
    [is_measure]. *)
Definition to_qasm_item (item : ref) (locals : list string * bool)
    : Py (list string * bool) :=
  let '(code, is_measure) := locals in
  (let! g := read item in
   let '(gate, ids) := Gate.gate2qasm g in
   if bool_decide (gate = "MX") then
     let! i0 := index ids 0 in
     let code := code ++ chars ("h q[" +:+ str i0 +:+ "];" +:+ nl) in
     let! idx := unbound "idx" in
     let! j0 := index idx 0 in
     let code := code ++ chars ("measure q[" +:+ str j0 +:+ "] -> c[0];" +:+ nl) in
     ret (code, true)
   else if bool_decide (gate = "MY") then
     let! i0 := index ids 0 in
     let! i1 := index ids 1 in
     let code := code ++ chars ("swap q[" +:+ str i0 +:+ "], q[" +:+ str i1 +:+ "];" +:+ nl) in
     let! i0 := index ids 0 in
     let code := code ++ chars ("h q[" +:+ str i0 +:+ "];" +:+ nl) in
     let! idx := unbound "idx" in
     let! j0 := index idx 0 in
     let code := code ++ chars ("measure q[" +:+ str j0 +:+ "] -> c[0];" +:+ nl) in
     ret (code, true)
   else if bool_decide (gate = "measure") then
     let! i0 := index ids 0 in
     let code := code ++ chars ("measure q[" +:+ str i0 +:+ "] -> c[0];" +:+ nl) in
     ret (code, true)
   else
     let! i0 := index ids 0 in
     let data := gate +:+ " q[" +:+ str i0 +:+ "]" in
     let! data :=
       if bool_decide (1 < length ids)%nat
       then let! i1 := index ids 1 in ret (data +:+ ", q[" +:+ str i1 +:+ "]")
       else ret data in
     let data := data +:+ ";" in
     ret (code ++ [data], is_measure))%py.

Fixpoint to_qasm_loop (items : list ref) (locals : list string * bool)
    : Py (list string * bool) :=
  match items with
  | [] => ret locals
  | item :: rest =>
      (let! locals' := to_qasm_item item locals in
       to_qasm_loop rest locals')%py
  end.

Definition to_qasm : Py string :=
  (let! c := get_self in
   let code := ["# Generated by QIBO"] in
   let code := code ++ ["OPENQASM 2.0;"] in
   let code := code ++ ["include " +:+ dquote +:+ "qelib1.inc" +:+ dquote +:+ ";"] in
   let code := code ++ ["qreg q[" +:+ str (nqubits c) +:+ "];"] in
   let! locals := to_qasm_loop (queue c) (code, false) in
   let code := if snd locals
               then list_insert_at 4 "creg c[1];" (fst locals)
               else fst locals in
   ret (String.concat nl code))%py.

End BaseCircuit.

(** ** The gradient registered for the operation [InitialState] *)
Section InitialStateGrad.

(** The entries of the gradient tensor and the constant [0] among them;
    [Op] is the operation being differentiated, which the function does
    not look at. *)
Context {T Op : Type} (zero : T).

(** [tf.concat([[0], grad[1:]], axis=0)], returned in a one-element
    list. *)
Definition _initial_state_grad (op : Op) (grad : list T) : list (list T) :=
  let to_initial_state := [zero] ++ drop 1 grad in
  [to_initial_state].

End InitialStateGrad.

Import BaseCircuit.

(** * Notions used in the statements *)

(** What [add] does to the qubit count of the gate object [g]: filled in
    when unset, left alone otherwise. *)
Definition backfill (n : Z) (g : ref) (st : Store) : Store :=
  match Gate._nqubits (st g) with
  | None => <[g := Gate.set_nqubits n (st g)]> st
  | Some _ => st
  end.

(** The qubit on which [_check_measured] raises, if any: the first of
    [qs] among the target qubits of the circuit's measurement gate. *)
Definition measured_qubit (c : Circuit) (st : Store) (qs : list Z) : option Z :=
  match measurement_gate c with
  | Some mg => List.find (fun q => bool_decide (q ∈ Gate.target_qubits (st mg))) qs
  | None => None
  end.

(** The name under which [_add_measurement] records the gate [g]. *)
Definition register_of (c : Circuit) (g : Gate.t) : string :=
  match Gate.register_name g with
  | Some name => name
  | None => "Register" +:+ str (Z.of_nat (base.size (measurement_sets c)))
  end.

(** What [_add_measurement] does once the register name is settled:
    install the gate as the circuit's measurement gate, or merge its
    targets into the one already there, and record the register. *)
Definition record_measurement (name : string) (gate : ref) (c : Circuit)
    (st : Store) : World :=
  match measurement_gate c with
  | None =>
      mkWorld
        (set_measurement_sets
           (<[name := QSet (list_to_set (Gate.target_qubits (st gate)))]>
              (measurement_sets c))
           (set_measurement_gate (Some gate) c))
        st
  | Some mg =>
      let st' := <[mg := Gate._add (Gate.target_qubits (st gate)) (st mg)]> st in
      mkWorld
        (set_measurement_sets
           (<[name := QTuple (Gate.target_qubits (st' gate))]> (measurement_sets c))
           c)
        st'
  end.

(** A gate that [add] appends to the queue: any gate but a measurement. *)
Definition ordinary (st : Store) (g : ref) : bool :=
  negb (bool_decide (Gate.name (st g) = "measure")).

(** Two stores whose gate objects have the same names. *)
Definition same_names (st st' : Store) : Prop :=
  forall r, Gate.name (st' r) = Gate.name (st r).

(** The line emitted for an opcode other than MX, MY and measure. *)
Definition gate_line (gate : string) (ids : list Z) : string :=
  match ids with
  | i0 :: i1 :: _ =>
      ((gate +:+ " q[" +:+ str i0 +:+ "]") +:+ ", q[" +:+ str i1 +:+ "]") +:+ ";"
  | i0 :: [] => (gate +:+ " q[" +:+ str i0 +:+ "]") +:+ ";"
  | [] => ""
  end.

Definition is_measurement_opcode (gate : string) : bool :=
  bool_decide (gate = "MX") || bool_decide (gate = "MY")
  || bool_decide (gate = "measure").

(** The queue of a circuit as [add] builds it: no measurement gate in it,
    and every gate carrying the circuit's qubit count. *)
Definition queue_wf (c : Circuit) (st : Store) : Prop :=
  forall g, g ∈ queue c ->
    ordinary st g = true /\ Gate._nqubits (st g) = Some (nqubits c).

(** The measurement state of a circuit as [add] builds it: registers are
    recorded only once a measurement gate is installed, and the installed
    gate is a measurement. *)
Definition measurement_wf (c : Circuit) (st : Store) : Prop :=
  (measurement_gate c = None -> measurement_sets c = ∅) /\
  (forall mg, measurement_gate c = Some mg -> Gate.name (st mg) = "measure").

(** The four lines every text of [to_qasm] starts with. *)
Definition qasm_header (n : Z) : list string :=
  ["# Generated by QIBO";
   "OPENQASM 2.0;";
   "include " +:+ dquote +:+ "qelib1.inc" +:+ dquote +:+ ";";
   "qreg q[" +:+ str n +:+ "];"].

(** The elements that the loop of [to_qasm] appends to [code] for a gate
    that lowers to [(gate, i0 :: _)] with an opcode other than MX and MY:
    the characters of the measure instruction, or one line. *)
Definition item_code (gate : string) (ids : list Z) : list string :=
  if bool_decide (gate = "measure")
  then match ids with
       | i0 :: _ => chars ("measure q[" +:+ str i0 +:+ "] -> c[0];" +:+ nl)
       | [] => []
       end
  else [gate_line gate ids].

(** A gate whose lowering the loop of [to_qasm] gets through: its opcode
    is neither MX nor MY and it has an operand. *)
Definition lowers (st : Store) (item : ref) : Prop :=
  fst (Gate.gate2qasm (st item)) <> "MX" /\
  fst (Gate.gate2qasm (st item)) <> "MY" /\
  snd (Gate.gate2qasm (st item)) <> [].

Definition lowers_to_measure (st : Store) (item : ref) : bool :=
  bool_decide (fst (Gate.gate2qasm (st item)) = "measure").

(** ** Sample gates, used where a property is evaluated on a concrete
    circuit *)
Module Sample.

Definition H (q : Z) : Gate.t :=
  Gate.mk "h" [] [q] None None ("h", [q]).

Definition CNOT (q0 q1 : Z) : Gate.t :=
  Gate.mk "cx" [q0] [q1] None None ("cx", [q0; q1]).

Definition M (q : Z) (register_name : option string) : Gate.t :=
  Gate.mk "measure" [] [q] None register_name ("measure", [q]).

(** The value of a result, [d] when it is an exception. *)
Definition value {A} (d : A) (r : Result A) : A :=
  match r with Ok a => a | Raise _ => d end.

(** A store holding the listed gate objects at references 0, 1, ... *)
Definition store_of (l : list Gate.t) : Store :=
  fun r => default (H 0) (l !! r).

End Sample.

(** * Properties *)

(** ** What [add] computes *)

Lemma _check_measured_eq qs w :
  _check_measured qs w
  = (match measured_qubit (self w) (gates w) qs with
     | Some q => Raise (ValueError_measured q)
     | None => Ok tt
     end, w).
Proof.
  unfold measured_qubit.
  induction qs as [|q qs IH]; cbn [_check_measured].
  - now destruct (measurement_gate (self w)).
  - unfold bind at 1, get_self.
    destruct (measurement_gate (self w)) as [mg|] eqn:Hmg.
    + unfold bind, read. cbn [List.find].
      destruct (bool_decide (q ∈ Gate.target_qubits (gates w mg))); [reflexivity|].
      exact IH.
    + exact IH.
Qed.

Lemma _add_measurement_eq gate c store :
  _add_measurement gate (mkWorld c store) =
  let name := register_of c (store gate) in
  match Gate.register_name (store gate) with
  | Some _ =>
      if bool_decide (is_Some (measurement_sets c !! name))
      then (Raise (KeyError_register name), mkWorld c store)
      else (Ok tt, record_measurement name gate c store)
  | None =>
      (Ok tt, record_measurement name gate c
                (<[gate := Gate.set_register_name name (store gate)]> store))
  end.
Proof.
  unfold _add_measurement, register_of, record_measurement.
  unfold bind at 1. unfold read at 1. unfold bind at 1. unfold get_self at 1.
  unfold bind at 1. cbn [self gates].
  destruct (Gate.register_name (store gate)) as [name|].
  - destruct (bool_decide (is_Some (measurement_sets c !! name)));
      [reflexivity|].
    unfold ret, bind, get_self, modify, modify_self, read. cbn [self gates].
    destruct (measurement_gate c); reflexivity.
  - unfold ret, bind, get_self, modify, modify_self, read. cbn [self gates].
    destruct (measurement_gate c); reflexivity.
Qed.

Lemma add_eq gate c store :
  add gate (mkWorld c store) =
  match _final_state c with
  | None => (Raise (AttributeError "_final_state"), mkWorld c store)
  | Some PyObject => (Raise RuntimeError_executed, mkWorld c store)
  | Some PyNone =>
      let n := nqubits c in
      let st := backfill n gate store in
      if bool_decide (is_Some (Gate._nqubits (store gate))
                      /\ Gate._nqubits (store gate) <> Some n)
      then (Raise (ValueError_nqubits (default 0 (Gate._nqubits (store gate))) n),
            mkWorld c store)
      else
        match measured_qubit c st (Gate.qubits (st gate)) with
        | Some q => (Raise (ValueError_measured q), mkWorld c st)
        | None =>
            if bool_decide (Gate.name (st gate) = "measure")
            then _add_measurement gate (mkWorld c st)
            else (Ok tt, mkWorld (set_queue (queue c ++ [gate]) c) st)
        end
  end.
Proof.
  unfold add, get_final_state. unfold bind at 1 2. unfold get_self at 1.
  cbn [self].
  destruct (_final_state c) as [[|]|]; cbn; try reflexivity.
  unfold bind at 1. unfold read at 1. unfold bind at 1. unfold get_self at 1.
  unfold bind at 1. unfold backfill. cbn [self gates].
  destruct (Gate._nqubits (store gate)) as [m|].
  - destruct (decide (m = nqubits c)) as [->|Hne].
    + rewrite bool_decide_false by (intros H; now apply H).
      rewrite bool_decide_false by (intros [_ H]; now apply H).
      cbn. unfold bind at 1. unfold read at 1. unfold bind at 1.
      rewrite _check_measured_eq. cbn [self gates].
      destruct (measured_qubit _ _ _); [reflexivity|].
      unfold bind, read, modify_self.
      destruct (bool_decide _); reflexivity.
    + rewrite bool_decide_true by exact Hne.
      rewrite bool_decide_true by (split; [eauto|congruence]).
      reflexivity.
  - rewrite bool_decide_false by (intros [[? H] _]; discriminate).
    cbn. unfold bind at 1. unfold bind at 1. rewrite _check_measured_eq. cbn [self gates].
    destruct (measured_qubit _ _ _); [reflexivity|].
    unfold bind, read, modify_self. cbn [self gates].
    destruct (bool_decide _); reflexivity.
Qed.

(** ** The frozen-circuit guard of [add] *)

(** A circuit without the attribute [_final_state] rejects every gate at
    the first line of [add], before anything is read or written. *)
Lemma add_without_final_state (c : Circuit) (store : Store) (gate : ref) :
  _final_state c = None ->
  add gate (mkWorld c store)
  = (Raise (AttributeError "_final_state"), mkWorld c store).
Proof. intros H. rewrite add_eq. now rewrite H. Qed.

(** C10. On a circuit made by [BaseCircuit.__init__], whatever its
    [is_executed] flag has been set to since, [add] raises AttributeError
    for [_final_state] and nothing has been changed at that point: neither
    the circuit, nor the gate (its qubit count is not filled in), so that
    none of the checks of [add] has run.  The constructor sets
    [is_executed] and leaves [_final_state] unbound. *)
Theorem add_BaseCircuit_AttributeError
    (n : Z) (executed : bool) (gate : ref) (store : Store) :
  is_executed (__init__ n) = false /\
  _final_state (set_is_executed executed (__init__ n)) = None /\
  add gate (mkWorld (set_is_executed executed (__init__ n)) store)
  = (Raise (AttributeError "_final_state"),
     mkWorld (set_is_executed executed (__init__ n)) store).
Proof.
  split; [reflexivity|]. split; [reflexivity|].
  apply add_without_final_state. reflexivity.
Qed.

(** C2, evaluated.  With [is_executed] set on a circuit, [add] does not
    raise the RuntimeError of line 85.  On an instance of [BaseCircuit] it
    raises AttributeError; on an instance that has [_final_state = None] it
    accepts the gate and appends it to the queue. *)
Theorem add_ignores_is_executed :
  let store := Sample.store_of [Sample.H 0] in
  let base := set_is_executed true (__init__ 1) in
  let derived := set_is_executed true (derived__init__ PyNone 1) in
  is_executed base = true /\ is_executed derived = true /\
  fst (add 0%nat (mkWorld base store)) = Raise (AttributeError "_final_state") /\
  fst (add 0%nat (mkWorld derived store)) = Ok tt /\
  queue derived = [] /\
  queue (self (snd (add 0%nat (mkWorld derived store)))) = [0%nat].
Proof. repeat split. Qed.

(** ** The gradient of [InitialState] *)

(** C9. For a gradient of length at least 1 the function returns one vector
    of the same length, with the constant 0 at index 0 and the entries of
    [grad] at every index from 1 on. *)
Theorem initial_state_grad_spec {T Op : Type} (zero : T) (op : Op) (grad : list T) :
  (1 <= length grad)%nat ->
  exists v,
    _initial_state_grad zero op grad = [v] /\
    length v = length grad /\
    v !! 0%nat = Some zero /\
    forall i, (1 <= i)%nat -> v !! i = grad !! i.
Proof.
  intros Hlen. destruct grad as [|x grad']; simpl in Hlen; [lia|].
  exists (zero :: grad'). repeat split.
  intros [|i] Hi; [lia|reflexivity].
Qed.

Lemma initial_state_grad_spec_witness :
  (1 <= length [5; 7; 9])%nat /\
  exists v,
    _initial_state_grad 0 tt [5; 7; 9] = [v] /\
    length v = length [5; 7; 9] /\
    v !! 0%nat = Some 0 /\
    forall i, (1 <= i)%nat -> v !! i = [5; 7; 9] !! i.
Proof.
  split; [simpl; lia|].
  apply (initial_state_grad_spec 0 tt [5; 7; 9]). simpl; lia.
Defined.

(** ** [to_qasm] *)

Lemma to_qasm_item_other item code is_measure w gate ids :
  Gate.gate2qasm (gates w item) = (gate, ids) ->
  is_measurement_opcode gate = false ->
  ids <> [] ->
  to_qasm_item item (code, is_measure) w
  = (Ok (code ++ [gate_line gate ids], is_measure), w).
Proof.
  intros Hg Hop Hids. unfold is_measurement_opcode in Hop.
  apply orb_false_elim in Hop as [Hop Hm].
  apply orb_false_elim in Hop as [Hx Hy].
  unfold to_qasm_item, bind, read. rewrite Hg, Hx, Hy, Hm.
  destruct ids as [|i0 [|i1 ids]]; [congruence| |]; reflexivity.
Qed.

(** C6. On a 2-qubit circuit whose queue lowers to [('h', [0])] and
    [('cx', [0, 1])], [to_qasm] returns the six lines below joined by
    newlines: no classical register line. *)
Theorem to_qasm_h_cx (c : Circuit) (store : Store) :
  nqubits c = 2 ->
  (fun item => Gate.gate2qasm (store item)) <$> queue c
    = [("h", [0]); ("cx", [0; 1])] ->
  to_qasm (mkWorld c store)
  = (Ok (String.concat nl
           ["# Generated by QIBO";
            "OPENQASM 2.0;";
            "include " +:+ dquote +:+ "qelib1.inc" +:+ dquote +:+ ";";
            "qreg q[2];";
            "h q[0];";
            "cx q[0], q[1];"]),
     mkWorld c store).
Proof.
  intros Hn Hq.
  destruct (queue c) as [|a [|b [|x l]]] eqn:Hqueue; try discriminate.
  injection Hq as Ha Hb.
  unfold to_qasm, bind, get_self. cbn [self]. rewrite Hqueue, Hn.
  cbn [to_qasm_loop]. unfold bind.
  rewrite (to_qasm_item_other a _ _ _ "h" [0]); [|exact Ha|reflexivity|discriminate].
  rewrite (to_qasm_item_other b _ _ _ "cx" [0; 1]); [|exact Hb|reflexivity|discriminate].
  reflexivity.
Qed.

Lemma to_qasm_h_cx_witness :
  let c := set_queue [0%nat; 1%nat] (__init__ 2) in
  let store := Sample.store_of [Sample.H 0; Sample.CNOT 0 1] in
  nqubits c = 2 /\
  (fun item => Gate.gate2qasm (store item)) <$> queue c
    = [("h", [0]); ("cx", [0; 1])] /\
  to_qasm (mkWorld c store)
  = (Ok (String.concat nl
           ["# Generated by QIBO";
            "OPENQASM 2.0;";
            "include " +:+ dquote +:+ "qelib1.inc" +:+ dquote +:+ ";";
            "qreg q[2];";
            "h q[0];";
            "cx q[0], q[1];"]),
     mkWorld c store).
Proof.
  intros c store.
  split; [reflexivity|]. split; [reflexivity|].
  apply (to_qasm_h_cx c store); reflexivity.
Defined.

(** ** What [add] leaves alone *)

Lemma store_update_proj {X} (proj : Gate.t -> X) (f : Gate.t -> Gate.t)
    (st : Store) (r r' : ref) :
  (forall g, proj (f g) = proj g) ->
  proj ((<[r := f (st r)]> st) r') = proj (st r').
Proof.
  intros Hf. destruct (decide (r = r')) as [->|Hne].
  - rewrite fn_lookup_insert. apply Hf.
  - now rewrite fn_lookup_insert_ne.
Qed.

Lemma backfill_proj {X} (proj : Gate.t -> X) n g st r :
  (forall m x, proj (Gate.set_nqubits m x) = proj x) ->
  proj (backfill n g st r) = proj (st r).
Proof.
  intros Hf. unfold backfill. destruct (Gate._nqubits (st g)); [reflexivity|].
  now apply store_update_proj.
Qed.

Lemma backfill_nqubits n g st :
  (forall m, Gate._nqubits (st g) = Some m -> m = n) ->
  Gate._nqubits (backfill n g st g) = Some n.
Proof.
  intros H. unfold backfill. destruct (Gate._nqubits (st g)) as [m|] eqn:Hm.
  - rewrite Hm. f_equal. now apply H.
  - now rewrite fn_lookup_insert.
Qed.

Lemma backfill_nqubits_kept n g st r m :
  Gate._nqubits (st r) = Some m -> Gate._nqubits (backfill n g st r) = Some m.
Proof.
  intros H. unfold backfill. destruct (Gate._nqubits (st g)) as [k|] eqn:Hk; [exact H|].
  destruct (decide (g = r)) as [->|Hne]; [congruence|].
  now rewrite fn_lookup_insert_ne.
Qed.

Lemma record_measurement_proj {X} (proj : Gate.t -> X) name gate c st r :
  (forall qs x, proj (Gate._add qs x) = proj x) ->
  proj (gates (record_measurement name gate c st) r) = proj (st r).
Proof.
  intros Hf. unfold record_measurement.
  destruct (measurement_gate c); cbn [gates]; [|reflexivity].
  now apply store_update_proj.
Qed.

Lemma record_measurement_queue name gate c st :
  queue (self (record_measurement name gate c st)) = queue c.
Proof. unfold record_measurement. now destruct (measurement_gate c). Qed.

(** The part of a gate object that [add] never writes: its name, its
    control qubits and its lowering; and a qubit count, once set, stays. *)
Lemma _add_measurement_proj {X} (proj : Gate.t -> X) gate c st r :
  (forall qs x, proj (Gate._add qs x) = proj x) ->
  (forall name x, proj (Gate.set_register_name name x) = proj x) ->
  proj (gates (snd (_add_measurement gate (mkWorld c st))) r) = proj (st r).
Proof.
  intros Ha Hr. rewrite _add_measurement_eq. cbn zeta.
  destruct (Gate.register_name (st gate)).
  - destruct (bool_decide _); cbn [snd gates]; [reflexivity|].
    now apply record_measurement_proj.
  - cbn [snd]. rewrite record_measurement_proj by exact Ha.
    now apply store_update_proj.
Qed.

Lemma add_proj {X} (proj : Gate.t -> X) gate c st r :
  (forall qs x, proj (Gate._add qs x) = proj x) ->
  (forall name x, proj (Gate.set_register_name name x) = proj x) ->
  (forall m x, proj (Gate.set_nqubits m x) = proj x) ->
  proj (gates (snd (add gate (mkWorld c st))) r) = proj (st r).
Proof.
  intros Ha Hr Hn. rewrite add_eq.
  destruct (_final_state c) as [[|]|]; try reflexivity. cbn zeta.
  destruct (bool_decide (_ /\ _)); [reflexivity|].
  destruct (measured_qubit _ _ _); cbn [snd gates]; [now apply backfill_proj|].
  destruct (bool_decide (_ = _)); cbn [snd gates]; [|now apply backfill_proj].
  rewrite _add_measurement_proj by assumption. now apply backfill_proj.
Qed.

Lemma add_same_names gate c st :
  same_names st (gates (snd (add gate (mkWorld c st)))).
Proof. intros r. now apply (add_proj Gate.name). Qed.

Lemma add_nqubits_kept gate c st r m :
  Gate._nqubits (st r) = Some m ->
  Gate._nqubits (gates (snd (add gate (mkWorld c st))) r) = Some m.
Proof.
  intros H. rewrite add_eq.
  destruct (_final_state c) as [[|]|]; try exact H. cbn zeta.
  destruct (bool_decide (_ /\ _)); [exact H|].
  destruct (measured_qubit _ _ _); cbn [snd gates]; [now apply backfill_nqubits_kept|].
  destruct (bool_decide (_ = _)); cbn [snd gates]; [|now apply backfill_nqubits_kept].
  rewrite (_add_measurement_proj Gate._nqubits) by reflexivity.
  now apply backfill_nqubits_kept.
Qed.

(** The exceptions of [add] that come after the qubit-count check. *)
Lemma _add_measurement_raises gate w e :
  fst (_add_measurement gate w) = Raise e -> exists name, e = KeyError_register name.
Proof.
  destruct w as [c st]. rewrite _add_measurement_eq. cbn zeta.
  destruct (Gate.register_name (st gate)); [|discriminate].
  destruct (bool_decide _); [|discriminate].
  cbn. intros [= <-]. eauto.
Qed.

(** ** The qubit-count check of [add] *)

(** X24. On a circuit whose [_final_state] is [None], so that the frozen
    guard of [add] lets the gate through: a gate whose qubit count is unset
    has it set to the circuit's [nqubits] by [add], also when [add] goes on
    to reject the gate; a gate that declares another qubit count is
    rejected with the ValueError of line 92 and nothing is changed; and
    [add] raises an error of kind QubitCountMismatchError in that case
    only. *)
Theorem add_qubit_count (c : Circuit) (store : Store) (gate : ref) :
  _final_state c = Some PyNone ->
  let result := add gate (mkWorld c store) in
  (Gate._nqubits (store gate) = None ->
   Gate._nqubits (gates (snd result) gate) = Some (nqubits c)) /\
  (forall m, Gate._nqubits (store gate) = Some m -> m <> nqubits c ->
   result = (Raise (ValueError_nqubits m (nqubits c)), mkWorld c store)) /\
  (forall e, fst result = Raise e -> kind_of e = Some QubitCountMismatchError ->
   exists m, Gate._nqubits (store gate) = Some m /\ m <> nqubits c).
Proof.
  intros Hfs result. subst result. repeat split.
  - intros Hnone.
    assert (Hb : Gate._nqubits (backfill (nqubits c) gate store gate) = Some (nqubits c))
      by (apply backfill_nqubits; intros m Hm; congruence).
    rewrite add_eq, Hfs. cbn zeta.
    rewrite bool_decide_false by (intros [[m Hm] _]; congruence).
    destruct (measured_qubit _ _ _); cbn [snd gates]; [exact Hb|].
    destruct (bool_decide (_ = _)); cbn [snd gates]; [|exact Hb].
    now rewrite (_add_measurement_proj Gate._nqubits).
  - intros m Hm Hne. rewrite add_eq, Hfs. cbn zeta. rewrite Hm.
    rewrite bool_decide_true by (split; [eauto|congruence]). reflexivity.
  - intros e. rewrite add_eq, Hfs. cbn zeta.
    destruct (bool_decide (_ /\ _)) eqn:Hdec.
    + apply bool_decide_eq_true in Hdec as [[m Hm] Hne].
      intros _ _. exists m. split; [exact Hm|congruence].
    + destruct (measured_qubit _ _ _); cbn [fst].
      * intros [= <-]. discriminate.
      * destruct (bool_decide (_ = _)); [|discriminate].
        intros He. apply _add_measurement_raises in He as [name ->]. discriminate.
Qed.

Lemma add_qubit_count_witness :
  let store := Sample.store_of [Sample.H 0] in
  let c := derived__init__ PyNone 2 in
  _final_state c = Some PyNone /\
  let result := add 0%nat (mkWorld c store) in
  (Gate._nqubits (store 0%nat) = None ->
   Gate._nqubits (gates (snd result) 0%nat) = Some (nqubits c)) /\
  (forall m, Gate._nqubits (store 0%nat) = Some m -> m <> nqubits c ->
   result = (Raise (ValueError_nqubits m (nqubits c)), mkWorld c store)) /\
  (forall e, fst result = Raise e -> kind_of e = Some QubitCountMismatchError ->
   exists m, Gate._nqubits (store 0%nat) = Some m /\ m <> nqubits c).
Proof.
  intros store c. split; [reflexivity|].
  apply (add_qubit_count c store 0%nat). reflexivity.
Defined.

(** C5, evaluated.  A circuit made by [BaseCircuit.__init__] is not
    frozen: [is_executed] is [False] and nothing has executed it.  Yet
    [add] does not reach its qubit-count lines on it.  A gate with an unset
    qubit count is rejected with AttributeError and its count stays unset;
    a gate that declares 3 qubits, added to this 2-qubit circuit, is
    rejected with the same AttributeError, not with the ValueError of line
    92.  The same two gates on an instance that has [_final_state = None]
    get what lines 88-94 do: the count filled in, and the ValueError. *)
Theorem add_BaseCircuit_skips_qubit_count :
  let st := Sample.store_of [Sample.H 0; Gate.set_nqubits 3 (Sample.H 0)] in
  let c := __init__ 2 in
  let derived := derived__init__ PyNone 2 in
  is_executed c = false /\
  Gate._nqubits (st 0%nat) = None /\
  fst (add 0%nat (mkWorld c st)) = Raise (AttributeError "_final_state") /\
  Gate._nqubits (gates (snd (add 0%nat (mkWorld c st))) 0%nat) = None /\
  Gate._nqubits (st 1%nat) = Some 3 /\
  fst (add 1%nat (mkWorld c st)) = Raise (AttributeError "_final_state") /\
  kind_of (AttributeError "_final_state") <> Some QubitCountMismatchError /\
  Gate._nqubits (gates (snd (add 0%nat (mkWorld derived st))) 0%nat) = Some 2 /\
  fst (add 1%nat (mkWorld derived st)) = Raise (ValueError_nqubits 3 2).
Proof.
  cbn zeta. rewrite !add_without_final_state by reflexivity.
  repeat split; try reflexivity. discriminate.
Qed.

(** ** The measured-qubit guard of [add] *)

Lemma measured_qubit_found c st mg qs q :
  measurement_gate c = Some mg ->
  q ∈ qs -> q ∈ Gate.target_qubits (st mg) ->
  exists q', measured_qubit c st qs = Some q' /\
             q' ∈ qs /\ q' ∈ Gate.target_qubits (st mg).
Proof.
  intros Hmg Hq Hm. unfold measured_qubit. rewrite Hmg.
  destruct (List.find _ qs) as [q'|] eqn:Hfind.
  - apply find_some in Hfind as [Hin Hdec].
    exists q'. split; [reflexivity|]. split.
    + now apply list_elem_of_In.
    + now apply bool_decide_eq_true in Hdec.
  - exfalso. apply list_elem_of_In in Hq.
    pose proof (find_none _ _ Hfind q Hq) as Hdec. cbn in Hdec.
    apply bool_decide_eq_false in Hdec. contradiction.
Qed.

(** C4, as the code has it.  On a circuit that passes the frozen guard,
    for a gate that passes the qubit-count check (count unset, or equal to
    the circuit's) and has a target qubit among the target qubits of the
    installed measurement gate, [add] raises the ValueError of line 74 for
    one of the gate's qubits that is measured.  At that point the circuit
    is unchanged (queue, measurement gate, measurement sets) and no gate
    object has had its targets or its register name changed: the merge of
    [_add_measurement] has not run.  Only the qubit count of the gate has
    been filled in. *)
Theorem add_measured_qubit_rejected
    (c : Circuit) (store : Store) (gate mg : ref) (q : Z) :
  _final_state c = Some PyNone ->
  (forall m, Gate._nqubits (store gate) = Some m -> m = nqubits c) ->
  measurement_gate c = Some mg ->
  q ∈ Gate.target_qubits (store gate) ->
  q ∈ Gate.target_qubits (store mg) ->
  exists q' store',
    add gate (mkWorld c store) = (Raise (ValueError_measured q'), mkWorld c store') /\
    kind_of (ValueError_measured q') = Some MeasuredQubitReuseError /\
    q' ∈ Gate.qubits (store gate) /\
    q' ∈ Gate.target_qubits (store mg) /\
    store' = backfill (nqubits c) gate store /\
    forall r, Gate.target_qubits (store' r) = Gate.target_qubits (store r) /\
              Gate.register_name (store' r) = Gate.register_name (store r).
Proof.
  intros Hfs Hn Hmg Hq Hm.
  set (st := backfill (nqubits c) gate store).
  assert (Hproj : forall {X} (proj : Gate.t -> X) r,
             (forall m x, proj (Gate.set_nqubits m x) = proj x) ->
             proj (st r) = proj (store r))
    by (intros X proj r Hp; now apply backfill_proj).
  destruct (measured_qubit_found c st mg (Gate.qubits (st gate)) q Hmg)
    as (q' & Hfind & Hin & Hin').
  { unfold Gate.qubits. rewrite elem_of_app. right.
    now rewrite (Hproj _ Gate.target_qubits). }
  { now rewrite (Hproj _ Gate.target_qubits). }
  exists q', st. split; [|split; [reflexivity|split; [|split; [|split]]]].
  - rewrite add_eq, Hfs. cbn zeta.
    rewrite bool_decide_false.
    + fold st. now rewrite Hfind.
    + intros [[m Hm'] Hne]. apply Hne. rewrite Hm'. f_equal. now apply Hn.
  - unfold Gate.qubits in *.
    now rewrite (Hproj _ Gate.target_qubits), (Hproj _ Gate.control_qubits) in Hin.
  - now rewrite (Hproj _ Gate.target_qubits) in Hin'.
  - reflexivity.
  - intros r. split; now apply Hproj.
Qed.

Lemma add_measured_qubit_rejected_witness :
  let store := Sample.store_of [Sample.M 0 (Some "a"); Sample.H 0] in
  let c := set_measurement_gate (Some 0%nat) (derived__init__ PyNone 2) in
  _final_state c = Some PyNone /\
  (forall m, Gate._nqubits (store 1%nat) = Some m -> m = nqubits c) /\
  measurement_gate c = Some 0%nat /\
  0 ∈ Gate.target_qubits (store 1%nat) /\
  0 ∈ Gate.target_qubits (store 0%nat) /\
  exists q' store',
    add 1%nat (mkWorld c store) = (Raise (ValueError_measured q'), mkWorld c store') /\
    kind_of (ValueError_measured q') = Some MeasuredQubitReuseError /\
    q' ∈ Gate.qubits (store 1%nat) /\
    q' ∈ Gate.target_qubits (store 0%nat) /\
    store' = backfill (nqubits c) 1%nat store /\
    forall r, Gate.target_qubits (store' r) = Gate.target_qubits (store r) /\
              Gate.register_name (store' r) = Gate.register_name (store r).
Proof.
  intros store c.
  assert (H0 : 0 ∈ [0]) by (apply list_elem_of_here).
  split; [reflexivity|]. split; [intros m Hm; discriminate Hm|].
  split; [reflexivity|]. split; [exact H0|]. split; [exact H0|].
  apply (add_measured_qubit_rejected c store 1%nat 0%nat 0).
  - reflexivity.
  - intros m Hm; discriminate Hm.
  - reflexivity.
  - exact H0.
  - exact H0.
Defined.

(** C4 as stated fails: the qubit-count check comes first.  The circuit
    has its measurement gate on qubit 0; a gate on qubit 0 that declares 3
    qubits, added to this 2-qubit circuit, is rejected with the ValueError
    of line 92 (QubitCountMismatchError), and a circuit that has been
    executed rejects the same gate with the RuntimeError of line 85. *)
Lemma add_measured_qubit_other_error :
  let store := Sample.store_of
                 [Sample.M 0 (Some "a"); Gate.set_nqubits 3 (Sample.H 0)] in
  let c := set_measurement_gate (Some 0%nat) (derived__init__ PyNone 2) in
  let executed := set_measurement_gate (Some 0%nat) (derived__init__ PyObject 2) in
  measurement_gate c = Some 0%nat /\
  measurement_gate executed = Some 0%nat /\
  0 ∈ Gate.target_qubits (store 1%nat) /\
  0 ∈ Gate.target_qubits (store 0%nat) /\
  fst (add 1%nat (mkWorld c store)) = Raise (ValueError_nqubits 3 2) /\
  fst (add 1%nat (mkWorld executed store)) = Raise RuntimeError_executed /\
  kind_of (ValueError_nqubits 3 2) <> Some MeasuredQubitReuseError /\
  kind_of RuntimeError_executed <> Some MeasuredQubitReuseError.
Proof.
  cbn zeta.
  assert (H0 : 0 ∈ [0]) by (apply list_elem_of_here).
  repeat split; try exact H0; discriminate.
Qed.

(** ** Register names *)

(** C3, evaluated.  A 2-qubit circuit gets a measurement of qubit 0 under
    the explicit name "Register1", then a measurement of qubit 1 without a
    name.  The second gate is named by the number of registers recorded so
    far, which gives "Register1" again; that path has no membership test,
    so [add] succeeds and the entry of "Register1" is overwritten: it held
    the set {0} and now holds the tuple (1,).  One register is recorded
    where two were added. *)
Theorem default_register_name_overwrites :
  let store := Sample.store_of [Sample.M 0 (Some "Register1"); Sample.M 1 None] in
  let r1 := add 0%nat (mkWorld (derived__init__ PyNone 2) store) in
  let r2 := add 1%nat (snd r1) in
  fst r1 = Ok tt /\
  measurement_sets (self (snd r1)) !! "Register1" = Some (QSet {[0]}) /\
  fst r2 = Ok tt /\
  Gate.register_name (gates (snd r2) 1%nat) = Some "Register1" /\
  measurement_sets (self (snd r2)) !! "Register1" = Some (QTuple [1]) /\
  base.size (measurement_sets (self (snd r2))) = 1%nat.
Proof. vm_compute. repeat split. Qed.

(** ** [to_qasm] on measurement opcodes *)

(** C7, evaluated.  A gate that lowers to [('MX', [0])], or to
    [('MY', [0, 1])], is accepted by [add] and put in the queue; [to_qasm]
    then raises NameError for [idx] and returns no text.  Only the branch of
    opcode 'measure' reads [ids] throughout: there the text comes back with
    "creg c[1];" as its fifth line, straight after the qreg line, followed
    by the characters of the measure instruction, one per line. *)
Theorem to_qasm_MX_MY_NameError :
  let MX := Gate.mk "mx" [] [0] None None ("MX", [0]) in
  let MY := Gate.mk "my" [] [0] None None ("MY", [0; 1]) in
  let Mz := Gate.mk "mz" [] [0] None None ("measure", [0]) in
  let store := Sample.store_of [MX; MY; Mz] in
  let after_add g := snd (add g (mkWorld (derived__init__ PyNone 2) store)) in
  queue (self (after_add 0%nat)) = [0%nat] /\
  fst (to_qasm (after_add 0%nat)) = Raise (NameError "idx") /\
  queue (self (after_add 1%nat)) = [1%nat] /\
  fst (to_qasm (after_add 1%nat)) = Raise (NameError "idx") /\
  queue (self (after_add 2%nat)) = [2%nat] /\
  fst (to_qasm (after_add 2%nat))
  = Ok (String.concat nl
          (["# Generated by QIBO"; "OPENQASM 2.0;";
            "include " +:+ dquote +:+ "qelib1.inc" +:+ dquote +:+ ";";
            "qreg q[2];"; "creg c[1];"]
           ++ chars ("measure q[0] -> c[0];" +:+ nl))).
Proof. cbn zeta. repeat split. Qed.

(** ** Circuit addition *)

Lemma for_each_app {A} (body : A -> Py unit) (l1 l2 : list A) (w : World) :
  for_each body (l1 ++ l2) w = bind (for_each body l1) (fun _ => for_each body l2) w.
Proof.
  revert w. induction l1 as [|x l1 IH]; intros w; cbn [for_each app].
  - reflexivity.
  - unfold bind. destruct (body x w) as [[[]|e] w1]; [|reflexivity].
    rewrite IH. reflexivity.
Qed.

Lemma ordinary_same_names st st' g :
  same_names st st' -> ordinary st' g = ordinary st g.
Proof. intros H. unfold ordinary. now rewrite H. Qed.

Lemma filter_ordinary_same_names st st' l :
  same_names st st' -> List.filter (ordinary st') l = List.filter (ordinary st) l.
Proof.
  intros H. apply List.filter_ext. intros g. now apply ordinary_same_names.
Qed.

Lemma same_names_trans st1 st2 st3 :
  same_names st1 st2 -> same_names st2 st3 -> same_names st1 st3.
Proof. intros H12 H23 r. now rewrite H23, H12. Qed.

(** A successful [add] appends the gate to the queue unless it is a
    measurement; the qubit count of the circuit does not change. *)
Lemma add_Ok_queue gate c st w' :
  add gate (mkWorld c st) = (Ok tt, w') ->
  queue (self w') = queue c ++ (if ordinary st gate then [gate] else []) /\
  nqubits (self w') = nqubits c /\
  same_names st (gates w').
Proof.
  intros H. split; [|split].
  2: { rewrite add_eq in H. destruct (_final_state c) as [[|]|]; try discriminate.
       cbn zeta in H. destruct (bool_decide (_ /\ _)); [discriminate|].
       destruct (measured_qubit _ _ _); [discriminate|].
       destruct (bool_decide (_ = _)).
       - rewrite _add_measurement_eq in H. cbn zeta in H.
         destruct (Gate.register_name _);
           [destruct (bool_decide _); [discriminate|]|];
           injection H as <-; unfold record_measurement;
           now destruct (measurement_gate c).
       - now injection H as <-. }
  2: { replace w' with (snd (add gate (mkWorld c st))) by now rewrite H.
       apply add_same_names. }
  rewrite add_eq in H. destruct (_final_state c) as [[|]|]; try discriminate.
  cbn zeta in H. destruct (bool_decide (_ /\ _)); [discriminate|].
  destruct (measured_qubit _ _ _); [discriminate|].
  unfold ordinary.
  rewrite (backfill_proj Gate.name) in H by reflexivity.
  destruct (bool_decide (Gate.name (st gate) = "measure")); cbn [negb].
  - rewrite _add_measurement_eq in H. cbn zeta in H. rewrite app_nil_r.
    destruct (Gate.register_name _);
      [destruct (bool_decide _); [discriminate|]|];
      injection H as <-; apply record_measurement_queue.
  - now injection H as <-.
Qed.

Lemma for_each_add_Ok l c st w' :
  for_each add l (mkWorld c st) = (Ok tt, w') ->
  queue (self w') = queue c ++ List.filter (ordinary st) l /\
  nqubits (self w') = nqubits c /\
  same_names st (gates w').
Proof.
  revert c st. induction l as [|g l IH]; intros c st H; cbn [for_each] in H.
  - injection H as <-. cbn. rewrite app_nil_r. now repeat split.
  - unfold bind in H.
    destruct (add g (mkWorld c st)) as [[[]|e] [c1 st1]] eqn:Hadd; [|discriminate].
    apply add_Ok_queue in Hadd as (Hq & Hn & Hnames). cbn [self gates] in *.
    apply IH in H as (Hq' & Hn' & Hnames').
    rewrite Hq', Hq, Hn', Hn. cbn [List.filter].
    rewrite (filter_ordinary_same_names st st1) by exact Hnames.
    split; [|split; [reflexivity|]].
    + destruct (ordinary st g); cbn [app]; now rewrite <- app_assoc.
    + now apply same_names_trans with st1.
Qed.

(** The queue of a sum: what the constructor of [cls] put there, then the
    gates of the two queues that are not measurements. *)
Lemma _circuit_addition_Ok cls c1 c2 st R st' :
  _circuit_addition cls c1 c2 st = (Ok R, st') ->
  queue R = queue (cls (nqubits c1))
            ++ List.filter (ordinary st) (queue c1 ++ queue c2) /\
  same_names st st'.
Proof.
  unfold _circuit_addition.
  destruct (bool_decide (nqubits c1 ≠ nqubits c2)); [discriminate|].
  rewrite <- for_each_app.
  destruct (for_each add _ _) as [[[]|e] w] eqn:Hloop; [|discriminate].
  intros [= <- <-]. apply for_each_add_Ok in Hloop as (Hq & _ & Hnames).
  now split.
Qed.

(** C8. Let the class [cls] construct circuits with an empty queue
    ([BaseCircuit] itself, through [__add__], is one such class), and
    let the two stores in which the two sums are evaluated hold gate
    objects of the same names (the same store, or the second sum evaluated
    after the first).  Whenever the four additions succeed, [(A + B) + C]
    and [A + (B + C)] have the same queue: the gates of the queues of [A],
    [B] and [C], in that order. *)
Theorem circuit_addition_assoc
    (cls : Z -> Circuit) (A B C AB BC L R : Circuit)
    (st st1 st2 st' st1' st2' : Store) :
  (forall n, queue (cls n) = []) ->
  same_names st st' ->
  _circuit_addition cls A B st = (Ok AB, st1) ->
  _circuit_addition cls AB C st1 = (Ok L, st2) ->
  _circuit_addition cls B C st' = (Ok BC, st1') ->
  _circuit_addition cls A BC st1' = (Ok R, st2') ->
  queue L = queue R /\
  queue L = List.filter (ordinary st) (queue A ++ queue B ++ queue C).
Proof.
  intros Hcls Hst HAB HL HBC HR.
  apply _circuit_addition_Ok in HAB as (HqAB & Hn1).
  apply _circuit_addition_Ok in HL as (HqL & _).
  apply _circuit_addition_Ok in HBC as (HqBC & Hn1').
  apply _circuit_addition_Ok in HR as (HqR & _).
  rewrite Hcls in *. cbn [app] in *.
  assert (Hidem : forall s l, List.filter (ordinary s) (List.filter (ordinary s) l)
                              = List.filter (ordinary s) l).
  { intros s l. induction l as [|x l IH]; [reflexivity|]. cbn [List.filter].
    destruct (ordinary s x) eqn:Hx; [|exact IH].
    cbn [List.filter]. rewrite Hx. now rewrite IH. }
  assert (HLq : queue L = List.filter (ordinary st) (queue A ++ queue B ++ queue C)).
  { rewrite HqL, HqAB.
    rewrite (filter_ordinary_same_names st st1) by exact Hn1.
    rewrite !List.filter_app, Hidem. now rewrite <- app_assoc, Hidem. }
  split; [|exact HLq].
  rewrite HLq, HqR, HqBC.
  rewrite (filter_ordinary_same_names st' st1') by exact Hn1'.
  rewrite !(filter_ordinary_same_names st st') by exact Hst.
  rewrite !List.filter_app, !Hidem. reflexivity.
Qed.

Lemma circuit_addition_assoc_witness :
  let cls := derived__init__ PyNone in
  let st := Sample.store_of [Sample.H 0; Sample.CNOT 0 1; Sample.H 1] in
  let A := set_queue [0%nat] (cls 2) in
  let B := set_queue [1%nat] (cls 2) in
  let C := set_queue [2%nat] (cls 2) in
  let AB := Sample.value A (fst (_circuit_addition cls A B st)) in
  let st1 := snd (_circuit_addition cls A B st) in
  let L := Sample.value A (fst (_circuit_addition cls AB C st1)) in
  let st2 := snd (_circuit_addition cls AB C st1) in
  let BC := Sample.value A (fst (_circuit_addition cls B C st)) in
  let st1' := snd (_circuit_addition cls B C st) in
  let R := Sample.value A (fst (_circuit_addition cls A BC st1')) in
  let st2' := snd (_circuit_addition cls A BC st1') in
  (forall n, queue (cls n) = []) /\
  same_names st st /\
  _circuit_addition cls A B st = (Ok AB, st1) /\
  _circuit_addition cls AB C st1 = (Ok L, st2) /\
  _circuit_addition cls B C st = (Ok BC, st1') /\
  _circuit_addition cls A BC st1' = (Ok R, st2') /\
  queue L = [0%nat; 1%nat; 2%nat] /\
  queue L = queue R /\
  queue L = List.filter (ordinary st) (queue A ++ queue B ++ queue C).
Proof.
  intros cls st A B C AB st1 L st2 BC st1' R st2'.
  assert (Hcls : forall n, queue (cls n) = []) by reflexivity.
  assert (Hst : same_names st st) by (intros r; reflexivity).
  assert (HAB : _circuit_addition cls A B st = (Ok AB, st1)) by reflexivity.
  assert (HL : _circuit_addition cls AB C st1 = (Ok L, st2)) by reflexivity.
  assert (HBC : _circuit_addition cls B C st = (Ok BC, st1')) by reflexivity.
  assert (HR : _circuit_addition cls A BC st1' = (Ok R, st2')) by reflexivity.
  repeat (split; [assumption|]).
  split; [reflexivity|].
  exact (circuit_addition_assoc cls A B C AB BC L R st st1 st2 st st1' st2'
           Hcls Hst HAB HL HBC HR).
Defined.

Lemma backfill_nqubits_inv n g st r m :
  Gate._nqubits (backfill n g st r) = Some m ->
  m = n \/ Gate._nqubits (st r) = Some m.
Proof.
  unfold backfill. destruct (Gate._nqubits (st g)) eqn:Hg; [now right|].
  destruct (decide (g = r)) as [->|Hne].
  - rewrite fn_lookup_insert. cbn. intros [= <-]. now left.
  - rewrite fn_lookup_insert_ne by exact Hne. now right.
Qed.

(** Adding gates that are not measurements, of a fitting qubit count, to a
    circuit without a measurement gate that passes the frozen guard. *)
Lemma for_each_add_ordinary l c st :
  _final_state c = Some PyNone ->
  measurement_gate c = None ->
  (forall g, g ∈ l ->
     ordinary st g = true /\
     forall m, Gate._nqubits (st g) = Some m -> m = nqubits c) ->
  for_each add l (mkWorld c st)
  = (Ok tt, mkWorld (set_queue (queue c ++ l) c)
                    (foldl (fun s g => backfill (nqubits c) g s) st l)).
Proof.
  revert c st. induction l as [|g l IH]; intros c st Hfs Hmg Hl; cbn [for_each foldl].
  - unfold ret, set_queue. rewrite app_nil_r. now destruct c.
  - destruct (Hl g) as [Hord Hn]; [apply list_elem_of_here|].
    unfold bind. rewrite add_eq, Hfs. cbn zeta.
    rewrite bool_decide_false
      by (intros [[m Hm] Hne]; apply Hne; rewrite Hm; f_equal; now apply Hn).
    unfold measured_qubit at 1. rewrite Hmg.
    rewrite (backfill_proj Gate.name) by reflexivity.
    unfold ordinary in Hord. apply negb_true_iff in Hord. rewrite Hord.
    rewrite IH.
    + cbn [nqubits queue set_queue]. f_equal. f_equal.
      unfold set_queue. cbn. now rewrite <- app_assoc.
    + exact Hfs.
    + exact Hmg.
    + intros g' Hg'. destruct (Hl g') as [Hord' Hn']; [now apply list_elem_of_further|].
      split.
      * unfold ordinary. now rewrite (backfill_proj Gate.name).
      * cbn [nqubits set_queue]. intros m Hm.
        apply backfill_nqubits_inv in Hm as [->|Hm]; [reflexivity|now apply Hn'].
Qed.

(** C1 as stated fails.  [A] and [B] are 1-qubit circuits that each got,
    through [add], a measurement of qubit 0 under the register name "a".
    Their measurement gates are in [measurement_gate], not in [queue], so
    the addition re-submits nothing: it returns a fresh circuit without
    measurement gate, and no KeyError is raised for the name "a". *)
Lemma circuit_addition_ignores_registers :
  let cls := derived__init__ PyNone in
  let st0 := Sample.store_of [Sample.M 0 (Some "a"); Sample.M 0 (Some "a")] in
  let wa := snd (add 0%nat (mkWorld (cls 1) st0)) in
  let wb := snd (add 1%nat (mkWorld (cls 1) (gates wa))) in
  let A := self wa in
  let B := self wb in
  let st := gates wb in
  nqubits A = nqubits B /\
  measurement_gate A = Some 0%nat /\
  measurement_gate B = Some 1%nat /\
  queue A = [] /\ queue B = [] /\
  measurement_sets A !! "a" = Some (QSet {[0]}) /\
  measurement_sets B !! "a" = Some (QSet {[0]}) /\
  fst (__add__ A B st) = Ok (__init__ 1) /\
  fst (_circuit_addition cls A B st) = Ok (cls 1) /\
  measurement_gate (cls 1) = None /\
  measurement_sets (cls 1) = ∅.
Proof. cbn zeta. repeat split. Qed.

(** * Further properties of the circuit model *)

(** ** The outcomes of [add] *)

(** Every exception of [add]: the five raise sites it can reach, and the
    state each leaves. *)
Lemma add_Raise_inv gate c st e w' :
  add gate (mkWorld c st) = (Raise e, w') ->
  (e = AttributeError "_final_state" /\ _final_state c = None /\ w' = mkWorld c st) \/
  (e = RuntimeError_executed /\ _final_state c = Some PyObject /\ w' = mkWorld c st) \/
  (exists m, e = ValueError_nqubits m (nqubits c) /\ _final_state c = Some PyNone /\
             Gate._nqubits (st gate) = Some m /\ m <> nqubits c /\ w' = mkWorld c st) \/
  (exists q, e = ValueError_measured q /\ _final_state c = Some PyNone /\
             measured_qubit c (backfill (nqubits c) gate st)
               (Gate.qubits (backfill (nqubits c) gate st gate)) = Some q /\
             w' = mkWorld c (backfill (nqubits c) gate st)) \/
  (exists name, e = KeyError_register name /\ _final_state c = Some PyNone /\
                Gate.name (st gate) = "measure" /\
                Gate.register_name (st gate) = Some name /\
                is_Some (measurement_sets c !! name) /\
                w' = mkWorld c (backfill (nqubits c) gate st)).
Proof.
  rewrite add_eq. destruct (_final_state c) as [[|]|].
  - cbn zeta. destruct (bool_decide (_ /\ _)) eqn:Hdec.
    + apply bool_decide_eq_true in Hdec as [[m Hm] Hne]. rewrite Hm. cbn.
      intros [= <- <-]. right; right; left. exists m.
      split; [reflexivity|]. split; [reflexivity|]. split; [reflexivity|].
      split; [congruence|reflexivity].
    + destruct (measured_qubit _ _ _) as [q|] eqn:Hq.
      * intros [= <- <-]. right; right; right; left. exists q. now repeat split.
      * destruct (bool_decide (_ = "measure")) eqn:Hname; [|intros [=]].
        apply bool_decide_eq_true in Hname.
        rewrite (backfill_proj Gate.name) in Hname by reflexivity.
        rewrite _add_measurement_eq. cbn zeta. unfold register_of.
        rewrite (backfill_proj Gate.register_name) by reflexivity.
        destruct (Gate.register_name (st gate)) as [name|]; [|intros [=]].
        destruct (bool_decide (is_Some (measurement_sets c !! name))) eqn:Hin;
          [|intros [=]].
        apply bool_decide_eq_true in Hin.
        intros [= <- <-]. right; right; right; right. exists name. now repeat split.
  - intros [= <- <-]. right; left. now repeat split.
  - intros [= <- <-]. left. now repeat split.
Qed.

Lemma add_Raise_self gate c st e w' :
  add gate (mkWorld c st) = (Raise e, w') -> self w' = c.
Proof.
  intros H. apply add_Raise_inv in H
    as [(_ & _ & ->)|[(_ & _ & ->)|[(m & _ & _ & _ & _ & ->)
        |[(q & _ & _ & _ & ->)|(name & _ & _ & _ & _ & _ & ->)]]]];
    reflexivity.
Qed.

(** X1. A rejected gate leaves the circuit as it was: whatever [add]
    raises, the circuit (queue, measurement gate, measurement sets and all
    other attributes) is unchanged, and the only write a gate object can
    have received is its qubit count, filled in when it was unset. *)
Theorem add_Raise_atomic (gate : ref) (c : Circuit) (st : Store) (e : exn) (w' : World) :
  add gate (mkWorld c st) = (Raise e, w') ->
  self w' = c /\
  (gates w' = st \/ gates w' = backfill (nqubits c) gate st) /\
  forall r, Gate.target_qubits (gates w' r) = Gate.target_qubits (st r) /\
            Gate.register_name (gates w' r) = Gate.register_name (st r).
Proof.
  intros H. apply add_Raise_inv in H
    as [(_ & _ & ->)|[(_ & _ & ->)|[(m & _ & _ & _ & _ & ->)
        |[(q & _ & _ & _ & ->)|(name & _ & _ & _ & _ & _ & ->)]]]];
    cbn [self gates]; (split; [reflexivity|]); (split; [auto|]);
    intros r; split; try reflexivity; now apply backfill_proj.
Qed.

Lemma add_Raise_atomic_witness :
  let st := Sample.store_of [Sample.M 0 (Some "a"); Sample.H 0] in
  let c := self (snd (add 0%nat (mkWorld (derived__init__ PyNone 2) st))) in
  let st1 := gates (snd (add 0%nat (mkWorld (derived__init__ PyNone 2) st))) in
  let w' := snd (add 1%nat (mkWorld c st1)) in
  add 1%nat (mkWorld c st1) = (Raise (ValueError_measured 0), w') /\
  self w' = c /\
  (gates w' = st1 \/ gates w' = backfill (nqubits c) 1%nat st1) /\
  forall r, Gate.target_qubits (gates w' r) = Gate.target_qubits (st1 r) /\
            Gate.register_name (gates w' r) = Gate.register_name (st1 r).
Proof.
  intros st c st1 w'.
  assert (H : add 1%nat (mkWorld c st1) = (Raise (ValueError_measured 0), w'))
    by reflexivity.
  split; [exact H|].
  exact (add_Raise_atomic 1%nat c st1 (ValueError_measured 0) w' H).
Defined.

(** X2. The frozen guard as the code has it: [add] raises the RuntimeError
    of line 85 exactly on a circuit whose [_final_state] is bound to
    something other than [None], whatever the gate is, and then nothing has
    been written. *)
Theorem add_RuntimeError_iff (gate : ref) (c : Circuit) (st : Store) :
  (fst (add gate (mkWorld c st)) = Raise RuntimeError_executed
   <-> _final_state c = Some PyObject) /\
  (fst (add gate (mkWorld c st)) = Raise RuntimeError_executed ->
   snd (add gate (mkWorld c st)) = mkWorld c st).
Proof.
  assert (Hinv : fst (add gate (mkWorld c st)) = Raise RuntimeError_executed ->
                 _final_state c = Some PyObject /\
                 snd (add gate (mkWorld c st)) = mkWorld c st).
  { destruct (add gate (mkWorld c st)) as [r w'] eqn:Hadd. cbn [fst snd].
    intros ->. apply add_Raise_inv in Hadd
      as [(He & _)|[(_ & Hfs & ->)|[(m & He & _)|[(q & He & _)|(name & He & _)]]]];
      try discriminate He.
    now split. }
  split; [split|].
  - intros H. now apply Hinv.
  - intros Hfs. rewrite add_eq, Hfs. reflexivity.
  - intros H. now apply Hinv.
Qed.

(** X3. [add] never writes the attributes fixed at construction or owned
    by the execution step: whatever the outcome, [nqubits] (hence [size]),
    [is_executed], [_final_state] and [measurement_gate_result] are what
    they were. *)
Theorem add_fixed_attributes (gate : ref) (c : Circuit) (st : Store) :
  let c' := self (snd (add gate (mkWorld c st))) in
  nqubits c' = nqubits c /\
  size c' = size c /\
  is_executed c' = is_executed c /\
  _final_state c' = _final_state c /\
  measurement_gate_result c' = measurement_gate_result c.
Proof.
  cbn zeta. unfold size.
  destruct (add gate (mkWorld c st)) as [[[]|e] w'] eqn:Hadd; cbn [snd].
  - rewrite add_eq in Hadd.
    destruct (_final_state c) as [[|]|] eqn:Hfs; try discriminate.
    cbn zeta in Hadd. destruct (bool_decide (_ /\ _)); [discriminate|].
    destruct (measured_qubit _ _ _); [discriminate|].
    destruct (bool_decide (_ = "measure")).
    + rewrite _add_measurement_eq in Hadd. cbn zeta in Hadd.
      destruct (Gate.register_name _);
        [destruct (bool_decide _); [discriminate|]|];
        injection Hadd as <-; unfold record_measurement;
        destruct (measurement_gate c); cbn; now rewrite Hfs.
    + injection Hadd as <-. cbn. now rewrite Hfs.
  - apply add_Raise_self in Hadd as ->. now repeat split.
Qed.

(** What a successful [add] has checked and done. *)
Lemma add_Ok_inv gate c st w' :
  add gate (mkWorld c st) = (Ok tt, w') ->
  let st1 := backfill (nqubits c) gate st in
  _final_state c = Some PyNone /\
  (forall m, Gate._nqubits (st gate) = Some m -> m = nqubits c) /\
  measured_qubit c st1 (Gate.qubits (st1 gate)) = None /\
  ((Gate.name (st gate) <> "measure" /\
    w' = mkWorld (set_queue (queue c ++ [gate]) c) st1) \/
   (Gate.name (st gate) = "measure" /\
    (forall name, Gate.register_name (st gate) = Some name ->
                  measurement_sets c !! name = None) /\
    w' = record_measurement (register_of c (st gate)) gate c
           (match Gate.register_name (st gate) with
            | Some _ => st1
            | None => <[gate := Gate.set_register_name
                                  (register_of c (st gate)) (st1 gate)]> st1
            end))).
Proof.
  rewrite add_eq. destruct (_final_state c) as [[|]|]; [|intros [=]|intros [=]].
  cbn zeta. destruct (bool_decide (_ /\ _)) eqn:Hdec; [intros [=]|].
  apply bool_decide_eq_false in Hdec.
  destruct (measured_qubit _ _ _) eqn:Hq; [intros [=]|].
  rewrite (backfill_proj Gate.name) by reflexivity.
  intros H. split; [reflexivity|]. split.
  { intros m Hm. destruct (decide (m = nqubits c)) as [|Hne]; [assumption|].
    exfalso. apply Hdec. split; [eauto|congruence]. }
  split; [reflexivity|].
  destruct (bool_decide (Gate.name (st gate) = "measure")) eqn:Hname.
  - apply bool_decide_eq_true in Hname. right. split; [exact Hname|].
    rewrite _add_measurement_eq in H. cbn zeta in H. unfold register_of in *.
    rewrite (backfill_proj Gate.register_name) in H by reflexivity.
    destruct (Gate.register_name (st gate)) as [name|].
    + destruct (bool_decide (is_Some (measurement_sets c !! name))) eqn:Hin;
        [discriminate|].
      apply bool_decide_eq_false in Hin. injection H as <-. split; [|reflexivity].
      intros name' [= <-]. destruct (measurement_sets c !! name) eqn:Hl; [|reflexivity].
      exfalso. apply Hin. eauto.
    + injection H as <-. split; [intros name [=]|reflexivity].
  - apply bool_decide_eq_false in Hname. left. split; [exact Hname|].
    now injection H as <-.
Qed.

Lemma measured_qubit_Some_inv c st qs q :
  measured_qubit c st qs = Some q ->
  exists mg, measurement_gate c = Some mg /\ q ∈ qs /\ q ∈ Gate.target_qubits (st mg).
Proof.
  unfold measured_qubit. destruct (measurement_gate c) as [mg|]; [|intros [=]].
  intros H. apply find_some in H as [Hin Hdec]. exists mg.
  split; [reflexivity|]. split; [now apply list_elem_of_In|].
  now apply bool_decide_eq_true in Hdec.
Qed.

Lemma measured_qubit_None_inv c st qs mg q :
  measured_qubit c st qs = None ->
  measurement_gate c = Some mg -> q ∈ qs -> q ∉ Gate.target_qubits (st mg).
Proof.
  intros H Hmg Hq Hin.
  destruct (measured_qubit_found c st mg qs q Hmg Hq Hin) as (q' & Hq' & _).
  congruence.
Qed.

Lemma measured_qubit_None c st qs :
  (forall mg q, measurement_gate c = Some mg -> q ∈ qs ->
                q ∉ Gate.target_qubits (st mg)) ->
  measured_qubit c st qs = None.
Proof.
  intros H. destruct (measured_qubit c st qs) as [q|] eqn:Hq; [|reflexivity].
  apply measured_qubit_Some_inv in Hq as (mg & Hmg & Hin & Hin').
  exfalso. exact (H mg q Hmg Hin Hin').
Qed.

Lemma measured_qubit_backfill c n g st qs :
  measured_qubit c (backfill n g st) qs = measured_qubit c st qs.
Proof.
  unfold measured_qubit. destruct (measurement_gate c); [|reflexivity].
  now rewrite (backfill_proj Gate.target_qubits).
Qed.

Lemma qubits_backfill n g st r :
  Gate.qubits (backfill n g st r) = Gate.qubits (st r).
Proof.
  unfold Gate.qubits.
  now rewrite (backfill_proj Gate.target_qubits), (backfill_proj Gate.control_qubits).
Qed.

(** ** Depth *)

(** X4. A successful [add] makes the depth grow by one for a gate that is
    not a measurement and leaves it as it is for a measurement: measurement
    gates do not count in [depth]. *)
Theorem add_Ok_depth (gate : ref) (c : Circuit) (st : Store) (w' : World) :
  add gate (mkWorld c st) = (Ok tt, w') ->
  depth (self w') = (depth c + (if ordinary st gate then 1 else 0))%nat.
Proof.
  intros H. apply add_Ok_queue in H as (Hq & _ & _).
  unfold depth. rewrite Hq, length_app. now destruct (ordinary st gate).
Qed.

Lemma add_Ok_depth_witness :
  let st := Sample.store_of [Sample.H 0; Sample.M 1 None] in
  let r1 := add 0%nat (mkWorld (derived__init__ PyNone 2) st) in
  let r2 := add 1%nat (snd r1) in
  add 1%nat (mkWorld (self (snd r1)) (gates (snd r1))) = (Ok tt, snd r2) /\
  depth (self (snd r1)) = 1%nat /\
  depth (self (snd r2))
  = (depth (self (snd r1)) + (if ordinary (gates (snd r1)) 1%nat then 1 else 0))%nat.
Proof.
  intros st r1 r2.
  assert (H : add 1%nat (mkWorld (self (snd r1)) (gates (snd r1))) = (Ok tt, snd r2))
    by reflexivity.
  split; [exact H|]. split; [reflexivity|].
  exact (add_Ok_depth 1%nat (self (snd r1)) (gates (snd r1)) (snd r2) H).
Defined.

(** ** The measured-qubit guard, both ways *)

(** X5. On a circuit that passes the frozen guard, for a gate of a fitting
    qubit count, [add] raises the ValueError of line 74 if and only if one
    of the qubits the gate acts on, control or target, is a target of the
    circuit's measurement gate. *)
Theorem add_ValueError_measured_iff (gate : ref) (c : Circuit) (st : Store) :
  _final_state c = Some PyNone ->
  (forall m, Gate._nqubits (st gate) = Some m -> m = nqubits c) ->
  ((exists q, fst (add gate (mkWorld c st)) = Raise (ValueError_measured q)) <->
   (exists mg q, measurement_gate c = Some mg /\
                 q ∈ Gate.qubits (st gate) /\
                 q ∈ Gate.target_qubits (st mg))).
Proof.
  intros Hfs Hn. split.
  - intros [q Hq]. destruct (add gate (mkWorld c st)) as [r w'] eqn:Hadd.
    cbn [fst] in Hq. subst r.
    apply add_Raise_inv in Hadd
      as [(He & _)|[(He & _)|[(m & He & _)|[(q' & He & _ & Hm & _)|(name & He & _)]]]];
      try discriminate He.
    rewrite measured_qubit_backfill, qubits_backfill in Hm.
    apply measured_qubit_Some_inv in Hm as (mg & Hmg & Hin & Hin').
    exists mg, q'. now repeat split.
  - intros (mg & q & Hmg & Hin & Hin').
    destruct (measured_qubit_found c st mg (Gate.qubits (st gate)) q Hmg Hin Hin')
      as (q' & Hq' & _).
    exists q'. rewrite add_eq, Hfs. cbn zeta.
    rewrite bool_decide_false
      by (intros [[m Hm] Hne]; apply Hne; rewrite Hm; f_equal; now apply Hn).
    now rewrite measured_qubit_backfill, qubits_backfill, Hq'.
Qed.

Lemma add_ValueError_measured_iff_witness :
  let st := Sample.store_of [Sample.M 0 (Some "a"); Sample.CNOT 0 1] in
  let c := self (snd (add 0%nat (mkWorld (derived__init__ PyNone 2) st))) in
  let st1 := gates (snd (add 0%nat (mkWorld (derived__init__ PyNone 2) st))) in
  _final_state c = Some PyNone /\
  (forall m, Gate._nqubits (st1 1%nat) = Some m -> m = nqubits c) /\
  fst (add 1%nat (mkWorld c st1)) = Raise (ValueError_measured 0) /\
  ((exists q, fst (add 1%nat (mkWorld c st1)) = Raise (ValueError_measured q)) <->
   (exists mg q, measurement_gate c = Some mg /\
                 q ∈ Gate.qubits (st1 1%nat) /\
                 q ∈ Gate.target_qubits (st1 mg))).
Proof.
  intros st c st1.
  assert (Hn : forall m, Gate._nqubits (st1 1%nat) = Some m -> m = nqubits c)
    by (intros m Hm; discriminate Hm).
  split; [reflexivity|]. split; [exact Hn|]. split; [reflexivity|].
  exact (add_ValueError_measured_iff 1%nat c st1 eq_refl Hn).
Defined.

(** ** What the queue holds *)

Lemma add_Ok_gate_nqubits gate c st w' :
  add gate (mkWorld c st) = (Ok tt, w') ->
  Gate._nqubits (gates w' gate) = Some (nqubits c).
Proof.
  intros H. pose proof (add_Ok_inv _ _ _ _ H) as (_ & Hn & _).
  replace w' with (snd (add gate (mkWorld c st))) by now rewrite H.
  destruct (Gate._nqubits (st gate)) as [m|] eqn:Hm.
  - apply add_nqubits_kept. rewrite Hm. f_equal. now apply Hn.
  - clear Hn. rewrite add_eq in *.
    destruct (_final_state c) as [[|]|]; try discriminate. cbn zeta in *.
    assert (Hb : Gate._nqubits (backfill (nqubits c) gate st gate) = Some (nqubits c))
      by (apply backfill_nqubits; intros m' Hm'; congruence).
    destruct (bool_decide (_ /\ _)); [discriminate|].
    destruct (measured_qubit _ _ _); [discriminate|].
    destruct (bool_decide (_ = "measure")); cbn [snd gates]; [|exact Hb].
    now rewrite (_add_measurement_proj Gate._nqubits).
Qed.

Lemma add_queue_wf_aux gate c st :
  queue_wf c st ->
  queue_wf (self (snd (add gate (mkWorld c st))))
           (gates (snd (add gate (mkWorld c st)))).
Proof.
  intros Hwf.
  assert (Hkeep : forall g, g ∈ queue c ->
            ordinary (gates (snd (add gate (mkWorld c st)))) g = true /\
            Gate._nqubits (gates (snd (add gate (mkWorld c st))) g)
            = Some (nqubits c)).
  { intros g Hg. destruct (Hwf g Hg) as [Hord Hn]. split.
    - rewrite (ordinary_same_names st) by apply add_same_names. exact Hord.
    - now apply add_nqubits_kept. }
  destruct (add gate (mkWorld c st)) as [[[]|e] w'] eqn:Hadd; cbn [snd] in *.
  - pose proof (add_Ok_gate_nqubits _ _ _ _ Hadd) as Hgn.
    pose proof (add_Ok_queue _ _ _ _ Hadd) as (Hq & Hnq & Hnames).
    intros g Hg. rewrite Hq, elem_of_app in Hg. rewrite Hnq.
    destruct Hg as [Hg|Hg]; [now apply Hkeep|].
    destruct (ordinary st gate) eqn:Hord; [|now apply elem_of_nil in Hg].
    apply list_elem_of_singleton in Hg as ->. split; [|exact Hgn].
    now rewrite (ordinary_same_names st).
  - apply add_Raise_self in Hadd as Hself. rewrite Hself. exact Hkeep.
Qed.

(** X6. [add] keeps the queue well formed, whatever its outcome: if no
    gate of the queue is a measurement and every gate of the queue carries
    the circuit's qubit count, the same holds afterwards, for the gate just
    appended too. *)
Theorem add_queue_wf (gate : ref) (c : Circuit) (st : Store) :
  queue_wf c st ->
  queue_wf (self (snd (add gate (mkWorld c st))))
           (gates (snd (add gate (mkWorld c st)))).
Proof. exact (add_queue_wf_aux gate c st). Qed.

Lemma add_queue_wf_witness :
  let st := Sample.store_of [Sample.H 0; Sample.CNOT 0 1] in
  let w1 := snd (add 0%nat (mkWorld (derived__init__ PyNone 2) st)) in
  let w2 := snd (add 1%nat (mkWorld (self w1) (gates w1))) in
  queue_wf (self w1) (gates w1) /\
  queue (self w2) = [0%nat; 1%nat] /\
  queue_wf (self w2) (gates w2).
Proof.
  intros st w1 w2.
  assert (H1 : queue_wf (self w1) (gates w1)).
  { intros g Hg. change (g ∈ [0%nat]) in Hg.
    apply list_elem_of_singleton in Hg as ->. split; reflexivity. }
  split; [exact H1|]. split; [reflexivity|].
  exact (add_queue_wf 1%nat (self w1) (gates w1) H1).
Defined.

Lemma for_each_add_queue_wf l c st :
  queue_wf c st ->
  queue_wf (self (snd (for_each add l (mkWorld c st))))
           (gates (snd (for_each add l (mkWorld c st)))).
Proof.
  revert c st. induction l as [|g l IH]; intros c st Hwf; cbn [for_each].
  - exact Hwf.
  - unfold bind. pose proof (add_queue_wf_aux g c st Hwf) as Hwf'.
    destruct (add g (mkWorld c st)) as [[[]|e] [c1 st1]]; cbn [snd self gates] in *.
    + now apply IH.
    + exact Hwf'.
Qed.

(** X7. The sum of two circuits has a well-formed queue: when
    [_circuit_addition] succeeds for a class whose constructor leaves the
    queue empty, no gate of the result's queue is a measurement and every
    one carries the result's qubit count, whatever the operands' queues
    held. *)
Theorem circuit_addition_queue_wf
    (cls : Z -> Circuit) (c1 c2 R : Circuit) (st st' : Store) :
  queue (cls (nqubits c1)) = [] ->
  _circuit_addition cls c1 c2 st = (Ok R, st') ->
  queue_wf R st'.
Proof.
  intros Hcls. unfold _circuit_addition.
  destruct (bool_decide (nqubits c1 ≠ nqubits c2)); [discriminate|].
  rewrite <- for_each_app.
  assert (Hwf : queue_wf (cls (nqubits c1)) st)
    by (intros g Hg; rewrite Hcls in Hg; now apply elem_of_nil in Hg).
  pose proof (for_each_add_queue_wf (queue c1 ++ queue c2) _ _ Hwf) as Hwf'.
  destruct (for_each add _ _) as [[[]|e] w]; [|discriminate].
  intros [= <- <-]. exact Hwf'.
Qed.

Lemma _circuit_addition_queue_wf_witness :
  let cls := derived__init__ PyNone in
  let st := Sample.store_of [Sample.H 0; Sample.M 1 None; Sample.H 0] in
  let c1 := set_queue [0%nat; 1%nat] (cls 2) in
  let c2 := set_queue [2%nat] (cls 2) in
  let R := Sample.value c1 (fst (_circuit_addition cls c1 c2 st)) in
  let st' := snd (_circuit_addition cls c1 c2 st) in
  queue (cls (nqubits c1)) = [] /\
  _circuit_addition cls c1 c2 st = (Ok R, st') /\
  queue R = [0%nat; 2%nat] /\
  queue_wf R st'.
Proof.
  intros cls st c1 c2 R st'.
  assert (H : _circuit_addition cls c1 c2 st = (Ok R, st')) by reflexivity.
  split; [reflexivity|]. split; [exact H|]. split; [reflexivity|].
  exact (circuit_addition_queue_wf cls c1 c2 R st st' eq_refl H).
Defined.

(** ** Registers *)

(** X8. On a circuit that passes the frozen guard, for a gate of a fitting
    qubit count none of whose qubits is measured, [add] raises the KeyError
    of line 115 if and only if the gate is a measurement with an explicit
    register name that is already recorded; the circuit is then unchanged. *)
Theorem add_KeyError_register_iff
    (gate : ref) (c : Circuit) (st : Store) (name : string) :
  _final_state c = Some PyNone ->
  (forall m, Gate._nqubits (st gate) = Some m -> m = nqubits c) ->
  (forall mg q, measurement_gate c = Some mg -> q ∈ Gate.qubits (st gate) ->
                q ∉ Gate.target_qubits (st mg)) ->
  (add gate (mkWorld c st)
   = (Raise (KeyError_register name), mkWorld c (backfill (nqubits c) gate st))
   <->
   Gate.name (st gate) = "measure" /\
   Gate.register_name (st gate) = Some name /\
   is_Some (measurement_sets c !! name)).
Proof.
  intros Hfs Hn Hfree. split.
  - intros H. apply add_Raise_inv in H
      as [(He & _)|[(He & _)|[(m & He & _)|[(q & He & _)
          |(name' & He & _ & Hname & Hreg & Hin & _)]]]];
      try discriminate He.
    injection He as <-. now repeat split.
  - intros (Hname & Hreg & Hin). rewrite add_eq, Hfs. cbn zeta.
    rewrite bool_decide_false
      by (intros [[m Hm] Hne]; apply Hne; rewrite Hm; f_equal; now apply Hn).
    rewrite measured_qubit_backfill, qubits_backfill.
    rewrite measured_qubit_None by exact Hfree.
    rewrite (backfill_proj Gate.name) by reflexivity.
    rewrite bool_decide_true by exact Hname.
    rewrite _add_measurement_eq. cbn zeta. unfold register_of.
    rewrite (backfill_proj Gate.register_name), Hreg by reflexivity.
    now rewrite bool_decide_true by exact Hin.
Qed.

Lemma add_KeyError_register_iff_witness :
  let st := Sample.store_of [Sample.M 0 (Some "a"); Sample.M 1 (Some "a")] in
  let c := self (snd (add 0%nat (mkWorld (derived__init__ PyNone 2) st))) in
  let st1 := gates (snd (add 0%nat (mkWorld (derived__init__ PyNone 2) st))) in
  _final_state c = Some PyNone /\
  (forall m, Gate._nqubits (st1 1%nat) = Some m -> m = nqubits c) /\
  (forall mg q, measurement_gate c = Some mg -> q ∈ Gate.qubits (st1 1%nat) ->
                q ∉ Gate.target_qubits (st1 mg)) /\
  fst (add 1%nat (mkWorld c st1)) = Raise (KeyError_register "a") /\
  (add 1%nat (mkWorld c st1)
   = (Raise (KeyError_register "a"), mkWorld c (backfill (nqubits c) 1%nat st1))
   <->
   Gate.name (st1 1%nat) = "measure" /\
   Gate.register_name (st1 1%nat) = Some "a" /\
   is_Some (measurement_sets c !! "a")).
Proof.
  intros st c st1.
  assert (Hn : forall m, Gate._nqubits (st1 1%nat) = Some m -> m = nqubits c)
    by (intros m Hm; discriminate Hm).
  assert (Hfree : forall mg q, measurement_gate c = Some mg ->
            q ∈ Gate.qubits (st1 1%nat) -> q ∉ Gate.target_qubits (st1 mg)).
  { intros mg q [= <-] Hq Hq'. change (q ∈ [1]) in Hq. change (q ∈ [0]) in Hq'.
    apply list_elem_of_singleton in Hq. apply list_elem_of_singleton in Hq'. lia. }
  split; [reflexivity|]. split; [exact Hn|]. split; [exact Hfree|].
  split; [reflexivity|].
  exact (add_KeyError_register_iff 1%nat c st1 "a" eq_refl Hn Hfree).
Defined.

Lemma record_measurement_sets name gate c st :
  exists v, measurement_sets (self (record_measurement name gate c st))
            = <[name := v]> (measurement_sets c) /\
            v = match measurement_gate c with
                | None => QSet (list_to_set (Gate.target_qubits (st gate)))
                | Some mg =>
                    QTuple (Gate.target_qubits
                              ((<[mg := Gate._add (Gate.target_qubits (st gate)) (st mg)]> st)
                                 gate))
                end.
Proof.
  unfold record_measurement. destruct (measurement_gate c); eexists; split; reflexivity.
Qed.

(** X9. A measurement gate that [add] accepts under an explicit register
    name makes one new register: the name was not recorded before, it is
    recorded afterwards, every other register keeps its entry, the number
    of registers grows by one and the queue is not touched. *)
Theorem add_explicit_register
    (gate : ref) (c : Circuit) (st : Store) (name : string) (w' : World) :
  add gate (mkWorld c st) = (Ok tt, w') ->
  Gate.name (st gate) = "measure" ->
  Gate.register_name (st gate) = Some name ->
  measurement_sets c !! name = None /\
  is_Some (measurement_sets (self w') !! name) /\
  (forall other, other <> name ->
     measurement_sets (self w') !! other = measurement_sets c !! other) /\
  base.size (measurement_sets (self w')) = S (base.size (measurement_sets c)) /\
  queue (self w') = queue c.
Proof.
  intros H Hname Hreg.
  apply add_Ok_inv in H as (_ & _ & _ & [[Hne _]|(_ & Hfresh & ->)]);
    [contradiction|].
  unfold register_of. rewrite Hreg.
  specialize (Hfresh name Hreg).
  destruct (record_measurement_sets name gate c (backfill (nqubits c) gate st))
    as (v & -> & _).
  split; [exact Hfresh|]. split; [|split; [|split]].
  - rewrite lookup_insert_eq. eauto.
  - intros other Hother. now rewrite lookup_insert_ne.
  - now apply map_size_insert_None.
  - apply record_measurement_queue.
Qed.

Lemma add_explicit_register_witness :
  let st := Sample.store_of [Sample.M 0 (Some "a"); Sample.M 1 (Some "b")] in
  let w1 := snd (add 0%nat (mkWorld (derived__init__ PyNone 2) st)) in
  let w2 := snd (add 1%nat (mkWorld (self w1) (gates w1))) in
  add 1%nat (mkWorld (self w1) (gates w1)) = (Ok tt, w2) /\
  Gate.name (gates w1 1%nat) = "measure" /\
  Gate.register_name (gates w1 1%nat) = Some "b" /\
  measurement_sets (self w1) !! "b" = None /\
  is_Some (measurement_sets (self w2) !! "b") /\
  (forall other, other <> "b" ->
     measurement_sets (self w2) !! other = measurement_sets (self w1) !! other) /\
  base.size (measurement_sets (self w2)) = S (base.size (measurement_sets (self w1))) /\
  queue (self w2) = queue (self w1).
Proof.
  intros st w1 w2.
  assert (H : add 1%nat (mkWorld (self w1) (gates w1)) = (Ok tt, w2)) by reflexivity.
  split; [exact H|]. split; [reflexivity|]. split; [reflexivity|].
  exact (add_explicit_register 1%nat (self w1) (gates w1) "b" w2 H eq_refl eq_refl).
Defined.

(** ** The measurement gate *)

Lemma add_measurement_gate_aux gate c st :
  measurement_gate (self (snd (add gate (mkWorld c st))))
  = match measurement_gate c with
    | Some mg => Some mg
    | None =>
        match fst (add gate (mkWorld c st)) with
        | Ok _ => if ordinary st gate then None else Some gate
        | Raise _ => None
        end
    end.
Proof.
  destruct (add gate (mkWorld c st)) as [[[]|e] w'] eqn:Hadd; cbn [fst snd].
  - apply add_Ok_inv in Hadd as (_ & _ & _ & [[Hne ->]|(Hname & _ & ->)]).
    + unfold ordinary. rewrite bool_decide_false by exact Hne. cbn.
      now destruct (measurement_gate c).
    + unfold ordinary. rewrite bool_decide_true by exact Hname.
      unfold record_measurement.
      destruct (measurement_gate c) eqn:Hc; cbn; congruence.
  - apply add_Raise_self in Hadd as ->. now destruct (measurement_gate c).
Qed.

(** X10. A circuit has one measurement gate, the first one installed:
    once [measurement_gate] refers to a gate object, no call of [add],
    successful or not, makes it refer to another. *)
Theorem add_measurement_gate_kept (gate mg : ref) (c : Circuit) (st : Store) :
  measurement_gate c = Some mg ->
  measurement_gate (self (snd (add gate (mkWorld c st)))) = Some mg.
Proof. intros H. now rewrite add_measurement_gate_aux, H. Qed.

Lemma add_measurement_gate_kept_witness :
  let st := Sample.store_of [Sample.M 0 None; Sample.M 1 None] in
  let w1 := snd (add 0%nat (mkWorld (derived__init__ PyNone 2) st)) in
  measurement_gate (self w1) = Some 0%nat /\
  fst (add 1%nat (mkWorld (self w1) (gates w1))) = Ok tt /\
  measurement_gate (self (snd (add 1%nat (mkWorld (self w1) (gates w1))))) = Some 0%nat.
Proof.
  intros st w1. split; [reflexivity|]. split; [reflexivity|].
  exact (add_measurement_gate_kept 1%nat 0%nat (self w1) (gates w1) eq_refl).
Defined.

(** X11. [add] keeps the measurement state well formed, whatever its
    outcome: registers are recorded only on a circuit that has a
    measurement gate, and the measurement gate is a gate named "measure". *)
Theorem add_measurement_wf (gate : ref) (c : Circuit) (st : Store) :
  measurement_wf c st ->
  measurement_wf (self (snd (add gate (mkWorld c st))))
                 (gates (snd (add gate (mkWorld c st)))).
Proof.
  intros [Hsets Hmg]. split.
  - rewrite add_measurement_gate_aux.
    destruct (measurement_gate c) as [mg|] eqn:Hc; [discriminate|].
    destruct (add gate (mkWorld c st)) as [[[]|e] w'] eqn:Hadd; cbn [fst snd].
    + apply add_Ok_inv in Hadd as (_ & _ & _ & [[Hne ->]|(Hname & _ & ->)]).
      * intros _. cbn. now apply Hsets.
      * unfold ordinary. rewrite bool_decide_true by exact Hname. discriminate.
    + apply add_Raise_self in Hadd as ->. intros _. now apply Hsets.
  - intros mg. rewrite add_measurement_gate_aux.
    rewrite (add_proj Gate.name) by reflexivity.
    destruct (measurement_gate c) as [mg0|] eqn:Hc.
    + intros [= <-]. now apply Hmg.
    + destruct (fst (add gate (mkWorld c st))); [|discriminate].
      unfold ordinary.
      destruct (bool_decide (Gate.name (st gate) = "measure")) eqn:Hname;
        cbn [negb]; [|discriminate].
      intros [= <-]. now apply bool_decide_eq_true in Hname.
Qed.

Lemma add_measurement_wf_witness :
  let st := Sample.store_of [Sample.M 0 None; Sample.H 1] in
  let c := derived__init__ PyNone 2 in
  let w1 := snd (add 0%nat (mkWorld c st)) in
  measurement_wf c st /\
  measurement_gate (self w1) = Some 0%nat /\
  measurement_wf (self w1) (gates w1).
Proof.
  intros st c w1.
  assert (H : measurement_wf c st) by (split; [reflexivity|intros mg [=]]).
  split; [exact H|]. split; [reflexivity|].
  exact (add_measurement_wf 0%nat c st H).
Defined.

(** ** [_check_measured] *)

Lemma find_first {A} (f : A -> bool) (l : list A) (x : A) :
  List.find f l = Some x ->
  exists pre post, l = pre ++ x :: post /\ f x = true /\
                   forall y, y ∈ pre -> f y = false.
Proof.
  induction l as [|a l IH]; cbn [List.find]; [discriminate|].
  destruct (f a) eqn:Hfa.
  - intros [= ->]. exists [], l. repeat split; [exact Hfa|].
    intros y Hy. now apply elem_of_nil in Hy.
  - intros H. destruct (IH H) as (pre & post & -> & Hx & Hpre).
    exists (a :: pre), post. repeat split; [exact Hx|].
    intros y Hy. apply elem_of_cons in Hy as [->|Hy]; [exact Hfa|now apply Hpre].
Qed.

Lemma find_first_found {A} (f : A -> bool) (pre post : list A) (x : A) :
  f x = true -> (forall y, y ∈ pre -> f y = false) ->
  List.find f (pre ++ x :: post) = Some x.
Proof.
  intros Hx. induction pre as [|a pre IH]; intros Hpre; cbn [app List.find].
  - now rewrite Hx.
  - rewrite (Hpre a) by apply list_elem_of_here.
    apply IH. intros y Hy. now apply Hpre, list_elem_of_further.
Qed.

(** X12. [_check_measured] only reads.  It accepts a list of qubits
    exactly when none of them is a target of the circuit's measurement
    gate (always, on a circuit without measurement gate).  When some qubit
    of the list is measured it raises the ValueError of line 74, and the
    qubit it names is the first measured qubit of the list, in the order of
    the list: no other qubit, and no other exception. *)
Theorem check_measured_spec (qs : list Z) (w : World) :
  snd (_check_measured qs w) = w /\
  (fst (_check_measured qs w) = Ok tt <->
   forall mg q, measurement_gate (self w) = Some mg -> q ∈ qs ->
                q ∉ Gate.target_qubits (gates w mg)) /\
  (forall mg pre q post,
     measurement_gate (self w) = Some mg ->
     qs = pre ++ q :: post ->
     q ∈ Gate.target_qubits (gates w mg) ->
     (forall p, p ∈ pre -> p ∉ Gate.target_qubits (gates w mg)) ->
     fst (_check_measured qs w) = Raise (ValueError_measured q)) /\
  (forall e, fst (_check_measured qs w) = Raise e ->
   exists mg pre q post,
     e = ValueError_measured q /\
     measurement_gate (self w) = Some mg /\
     qs = pre ++ q :: post /\
     q ∈ Gate.target_qubits (gates w mg) /\
     forall p, p ∈ pre -> p ∉ Gate.target_qubits (gates w mg)).
Proof.
  rewrite _check_measured_eq. cbn [fst snd].
  split; [reflexivity|]. split; [split|split].
  - destruct (measured_qubit _ _ _) eqn:Hq; [discriminate|].
    intros _ mg q Hmg Hin. now apply (measured_qubit_None_inv _ _ _ _ _ Hq Hmg).
  - intros H. now rewrite measured_qubit_None.
  - intros mg pre q post Hmg -> Hq Hpre. unfold measured_qubit. rewrite Hmg.
    rewrite find_first_found; [reflexivity| |].
    + now apply bool_decide_eq_true.
    + intros p Hp. apply bool_decide_eq_false. now apply Hpre.
  - intros e. unfold measured_qubit.
    destruct (measurement_gate (self w)) as [mg|]; [|discriminate].
    destruct (List.find _ qs) as [q'|] eqn:Hfind; [|discriminate].
    intros [= <-]. apply find_first in Hfind as (pre & post & -> & Hq & Hpre).
    exists mg, pre, q', post. split; [reflexivity|]. split; [reflexivity|].
    split; [reflexivity|]. split; [now apply bool_decide_eq_true in Hq|].
    intros p Hp. specialize (Hpre p Hp). now apply bool_decide_eq_false in Hpre.
Qed.

(** ** The exceptions of [add] and of circuit addition *)

Lemma add_Raise_kind gate c st e :
  fst (add gate (mkWorld c st)) = Raise e ->
  e = AttributeError "_final_state" \/ is_Some (kind_of e) /\
  forall n1 n2, e <> ValueError_addition n1 n2.
Proof.
  destruct (add gate (mkWorld c st)) as [r w'] eqn:Hadd. cbn [fst]. intros ->.
  apply add_Raise_inv in Hadd
    as [(-> & _)|[(-> & _)|[(m & -> & _)|[(q & -> & _)|(name & -> & _)]]]];
    [now left|right..]; (split; [cbn; eauto|discriminate]).
Qed.

(** X13. [add] raises nothing but the errors of its own checks: an
    exception of [add] is the AttributeError for [_final_state] or one of
    FrozenCircuitError, QubitCountMismatchError (the ValueError of line
    92), MeasuredQubitReuseError and DuplicateRegisterNameError, each one
    exactly under its own condition; when it raises, nothing but the
    gate's qubit count has been written. *)
Theorem add_exceptions (gate : ref) (c : Circuit) (st : Store) (e : exn) :
  fst (add gate (mkWorld c st)) = Raise e ->
  (e = AttributeError "_final_state" /\ _final_state c = None) \/
  (kind_of e = Some FrozenCircuitError /\ _final_state c = Some PyObject) \/
  (kind_of e = Some QubitCountMismatchError /\
   exists m, e = ValueError_nqubits m (nqubits c) /\
             Gate._nqubits (st gate) = Some m /\ m <> nqubits c) \/
  (kind_of e = Some MeasuredQubitReuseError /\
   exists mg q, e = ValueError_measured q /\ measurement_gate c = Some mg /\
                q ∈ Gate.qubits (st gate) /\ q ∈ Gate.target_qubits (st mg)) \/
  (kind_of e = Some DuplicateRegisterNameError /\
   exists name, e = KeyError_register name /\
                Gate.register_name (st gate) = Some name /\
                is_Some (measurement_sets c !! name)).
Proof.
  destruct (add gate (mkWorld c st)) as [r w'] eqn:Hadd. cbn [fst]. intros ->.
  apply add_Raise_inv in Hadd
    as [(-> & Hfs & _)|[(-> & Hfs & _)|[(m & -> & _ & Hm & Hne & _)
        |[(q & -> & _ & Hq & _)|(name & -> & _ & _ & Hreg & Hin & _)]]]].
  - left. now split.
  - right; left. now split.
  - right; right; left. split; [reflexivity|]. exists m. now repeat split.
  - right; right; right; left. split; [reflexivity|].
    rewrite measured_qubit_backfill, qubits_backfill in Hq.
    apply measured_qubit_Some_inv in Hq as (mg & Hmg & Hin & Hin').
    exists mg, q. now repeat split.
  - right; right; right; right. split; [reflexivity|]. exists name. now repeat split.
Qed.

Lemma add_exceptions_witness :
  let st := Sample.store_of [Gate.set_nqubits 3 (Sample.H 0)] in
  let c := derived__init__ PyNone 2 in
  let e := ValueError_nqubits 3 2 in
  fst (add 0%nat (mkWorld c st)) = Raise e /\
  ((e = AttributeError "_final_state" /\ _final_state c = None) \/
   (kind_of e = Some FrozenCircuitError /\ _final_state c = Some PyObject) \/
   (kind_of e = Some QubitCountMismatchError /\
    exists m, e = ValueError_nqubits m (nqubits c) /\
              Gate._nqubits (st 0%nat) = Some m /\ m <> nqubits c) \/
   (kind_of e = Some MeasuredQubitReuseError /\
    exists mg q, e = ValueError_measured q /\ measurement_gate c = Some mg /\
                 q ∈ Gate.qubits (st 0%nat) /\ q ∈ Gate.target_qubits (st mg)) \/
   (kind_of e = Some DuplicateRegisterNameError /\
    exists name, e = KeyError_register name /\
                 Gate.register_name (st 0%nat) = Some name /\
                 is_Some (measurement_sets c !! name))).
Proof.
  intros st c e.
  assert (H : fst (add 0%nat (mkWorld c st)) = Raise e) by reflexivity.
  split; [exact H|].
  exact (add_exceptions 0%nat c st e H).
Defined.

Lemma for_each_add_Raise_kind l c st e :
  fst (for_each add l (mkWorld c st)) = Raise e ->
  forall n1 n2, e <> ValueError_addition n1 n2.
Proof.
  revert c st. induction l as [|g l IH]; intros c st; cbn [for_each].
  - discriminate.
  - unfold bind. destruct (add g (mkWorld c st)) as [[[]|e'] [c1 st1]] eqn:Hadd.
    + apply IH.
    + cbn [fst]. intros [= ->].
      assert (H : fst (add g (mkWorld c st)) = Raise e) by now rewrite Hadd.
      apply add_Raise_kind in H as [->|[_ H]]; [discriminate|exact H].
Qed.

(** X14. Circuit addition raises the ValueError of line 54 if and only if
    the two operands differ in [nqubits]; it does so before constructing
    the result or touching any gate, and no [add] inside the addition can
    raise that error. *)
Theorem circuit_addition_ValueError_iff
    (cls : Z -> Circuit) (c1 c2 : Circuit) (st : Store) :
  ((exists n1 n2, fst (_circuit_addition cls c1 c2 st)
                  = Raise (ValueError_addition n1 n2))
   <-> nqubits c1 <> nqubits c2) /\
  (nqubits c1 <> nqubits c2 ->
   _circuit_addition cls c1 c2 st
   = (Raise (ValueError_addition (nqubits c1) (nqubits c2)), st)).
Proof.
  assert (Hraise : nqubits c1 <> nqubits c2 ->
            _circuit_addition cls c1 c2 st
            = (Raise (ValueError_addition (nqubits c1) (nqubits c2)), st)).
  { intros Hne. unfold _circuit_addition. now rewrite bool_decide_true. }
  split; [split|exact Hraise].
  - intros (n1 & n2 & H). intros Heq. unfold _circuit_addition in H.
    rewrite bool_decide_false in H by (intros Hne; now apply Hne).
    rewrite <- for_each_app in H.
    destruct (for_each add _ _) as [[[]|e] w] eqn:Hloop; [discriminate|].
    cbn [fst] in H. injection H as ->.
    assert (Hl : fst (for_each add (queue c1 ++ queue c2)
                        (mkWorld (cls (nqubits c1)) st))
                 = Raise (ValueError_addition n1 n2)) by now rewrite Hloop.
    now apply for_each_add_Raise_kind with (n1 := n1) (n2 := n2) in Hl.
  - intros Hne. exists (nqubits c1), (nqubits c2). now rewrite Hraise.
Qed.

(** X15. [+] on circuits, which always constructs a [BaseCircuit]: for
    operands of equal [nqubits] it returns a fresh empty circuit when both
    queues are empty, and otherwise fails on the first gate with the
    AttributeError for [_final_state], leaving every gate object as it
    was. *)
Theorem BaseCircuit_add_operator (c1 c2 : Circuit) (st : Store) :
  nqubits c1 = nqubits c2 ->
  __add__ c1 c2 st
  = (match queue c1 ++ queue c2 with
     | [] => Ok (__init__ (nqubits c1))
     | _ :: _ => Raise (AttributeError "_final_state")
     end, st).
Proof.
  intros Hn. unfold __add__, _circuit_addition.
  rewrite bool_decide_false by (intros Hne; now apply Hne).
  rewrite <- for_each_app.
  destruct (queue c1 ++ queue c2) as [|g l]; cbn [for_each]; [reflexivity|].
  unfold bind. now rewrite add_without_final_state.
Qed.

Lemma BaseCircuit_add_operator_witness :
  let st := Sample.store_of [Sample.H 0] in
  let c1 := set_queue [0%nat] (derived__init__ PyNone 1) in
  let c2 := derived__init__ PyNone 1 in
  nqubits c1 = nqubits c2 /\
  fst (__add__ c1 c2 st) = Raise (AttributeError "_final_state") /\
  __add__ c1 c2 st
  = (match queue c1 ++ queue c2 with
     | [] => Ok (__init__ (nqubits c1))
     | _ :: _ => Raise (AttributeError "_final_state")
     end, st).
Proof.
  intros st c1 c2. split; [reflexivity|]. split; [reflexivity|].
  exact (BaseCircuit_add_operator c1 c2 st eq_refl).
Defined.

(** ** Gate objects are shared *)

(** X16. A gate object that a circuit has accepted carries that circuit's
    qubit count from then on: a circuit of another qubit count that passes
    the frozen guard rejects the same object with the ValueError of line
    92, and writes nothing. *)
Theorem add_gate_bound_to_qubit_count
    (gate : ref) (c c2 : Circuit) (st : Store) (w' : World) :
  add gate (mkWorld c st) = (Ok tt, w') ->
  _final_state c2 = Some PyNone ->
  nqubits c2 <> nqubits c ->
  add gate (mkWorld c2 (gates w'))
  = (Raise (ValueError_nqubits (nqubits c) (nqubits c2)), mkWorld c2 (gates w')).
Proof.
  intros H Hfs Hne. apply add_Ok_gate_nqubits in H.
  rewrite add_eq, Hfs. cbn zeta. rewrite H.
  rewrite bool_decide_true by (split; [eauto|congruence]). reflexivity.
Qed.

Lemma add_gate_bound_to_qubit_count_witness :
  let st := Sample.store_of [Sample.H 0] in
  let c := derived__init__ PyNone 2 in
  let c2 := derived__init__ PyNone 3 in
  let w' := snd (add 0%nat (mkWorld c st)) in
  Gate._nqubits (st 0%nat) = None /\
  add 0%nat (mkWorld c st) = (Ok tt, w') /\
  _final_state c2 = Some PyNone /\
  nqubits c2 <> nqubits c /\
  add 0%nat (mkWorld c2 (gates w'))
  = (Raise (ValueError_nqubits (nqubits c) (nqubits c2)), mkWorld c2 (gates w')).
Proof.
  intros st c c2 w'.
  assert (H : add 0%nat (mkWorld c st) = (Ok tt, w')) by reflexivity.
  assert (Hne : nqubits c2 <> nqubits c) by (cbn; lia).
  split; [reflexivity|]. split; [exact H|]. split; [reflexivity|]. split; [exact Hne|].
  exact (add_gate_bound_to_qubit_count 0%nat c c2 st w' H eq_refl Hne).
Defined.

(** ** [to_qasm], in general *)

Lemma to_qasm_item_lowers item code is_measure w :
  lowers (gates w) item ->
  to_qasm_item item (code, is_measure) w
  = (Ok (code ++ item_code (fst (Gate.gate2qasm (gates w item)))
                           (snd (Gate.gate2qasm (gates w item))),
         is_measure || lowers_to_measure (gates w) item), w).
Proof.
  unfold lowers, lowers_to_measure, item_code.
  destruct (Gate.gate2qasm (gates w item)) as [gate ids] eqn:Hg. cbn [fst snd].
  intros (Hx & Hy & Hids).
  destruct (bool_decide (gate = "measure")) eqn:Hm.
  - unfold to_qasm_item, bind, read. rewrite Hg.
    rewrite (bool_decide_false _ Hx), (bool_decide_false _ Hy), Hm.
    destruct ids as [|i0 ids]; [congruence|].
    cbn. now rewrite orb_true_r.
  - rewrite orb_false_r. apply to_qasm_item_other; [exact Hg| |exact Hids].
    unfold is_measurement_opcode.
    now rewrite (bool_decide_false _ Hx), (bool_decide_false _ Hy), Hm.
Qed.

Lemma to_qasm_loop_lowers items code is_measure w :
  (forall item, item ∈ items -> lowers (gates w) item) ->
  to_qasm_loop items (code, is_measure) w
  = (Ok (code ++ flat_map (fun item =>
                   item_code (fst (Gate.gate2qasm (gates w item)))
                             (snd (Gate.gate2qasm (gates w item)))) items,
         is_measure || existsb (lowers_to_measure (gates w)) items), w).
Proof.
  revert code is_measure.
  induction items as [|item items IH]; intros code is_measure Hall;
    cbn [to_qasm_loop flat_map existsb].
  - unfold ret. now rewrite app_nil_r, orb_false_r.
  - unfold bind. rewrite to_qasm_item_lowers by (apply Hall, list_elem_of_here).
    rewrite IH by (intros i Hi; now apply Hall, list_elem_of_further).
    now rewrite <- app_assoc, orb_assoc.
Qed.

Lemma to_qasm_loop_app items1 items2 locals w :
  to_qasm_loop (items1 ++ items2) locals w
  = bind (to_qasm_loop items1 locals) (to_qasm_loop items2) w.
Proof.
  revert locals w. induction items1 as [|item items1 IH]; intros locals w;
    cbn [to_qasm_loop app].
  - reflexivity.
  - unfold bind.
    destruct (to_qasm_item item locals w) as [[locals'|e] w1]; [|reflexivity].
    rewrite IH. reflexivity.
Qed.

(** X17. The text of [to_qasm] on a circuit all of whose gates lower:
    the four header lines with the circuit's [nqubits] in the qreg line;
    then "creg c[1];" if and only if some gate lowers to opcode 'measure',
    once, however many do; then, gate by gate in queue order, one line for
    an ordinary opcode and the characters of the measure instruction as
    separate lines for opcode 'measure'.  The circuit and the gates are
    not changed. *)
Theorem to_qasm_text (c : Circuit) (st : Store) :
  (forall item, item ∈ queue c -> lowers st item) ->
  to_qasm (mkWorld c st)
  = (Ok (String.concat nl
           (qasm_header (nqubits c)
            ++ (if existsb (lowers_to_measure st) (queue c)
                then ["creg c[1];"] else [])
            ++ flat_map (fun item =>
                 item_code (fst (Gate.gate2qasm (st item)))
                           (snd (Gate.gate2qasm (st item)))) (queue c))),
     mkWorld c st).
Proof.
  intros Hall. unfold to_qasm, bind, get_self. cbn [self].
  rewrite to_qasm_loop_lowers by exact Hall. cbn [gates fst snd orb].
  unfold ret. destruct (existsb _ _); reflexivity.
Qed.

Lemma to_qasm_text_witness :
  let st := Sample.store_of
              [Sample.H 0;
               Gate.mk "mz" [] [0] None None ("measure", [0]);
               Gate.mk "mz" [] [1] None None ("measure", [1])] in
  let c := set_queue [0%nat; 1%nat; 2%nat] (__init__ 2) in
  (forall item, item ∈ queue c -> lowers st item) /\
  existsb (lowers_to_measure st) (queue c) = true /\
  to_qasm (mkWorld c st)
  = (Ok (String.concat nl
           (qasm_header (nqubits c)
            ++ (if existsb (lowers_to_measure st) (queue c)
                then ["creg c[1];"] else [])
            ++ flat_map (fun item =>
                 item_code (fst (Gate.gate2qasm (st item)))
                           (snd (Gate.gate2qasm (st item)))) (queue c))),
     mkWorld c st).
Proof.
  intros st c.
  assert (Hall : forall item, item ∈ queue c -> lowers st item).
  { intros item Hi. change (item ∈ [0%nat; 1%nat; 2%nat]) in Hi.
    apply list_elem_of_In in Hi. cbn in Hi.
    destruct Hi as [<-|[<-|[<-|[]]]]; repeat split; discriminate. }
  split; [exact Hall|]. split; [reflexivity|].
  exact (to_qasm_text c st Hall).
Defined.

(** X18. [to_qasm] fails with NameError on the first gate that lowers to
    opcode MX with an operand, or to MY with two operands, when the gates
    before it lower: no text is returned, whatever follows in the queue. *)
Theorem to_qasm_NameError
    (c : Circuit) (st : Store) (pre post : list ref) (item : ref)
    (i0 : Z) (ids : list Z) :
  queue c = pre ++ item :: post ->
  (forall p, p ∈ pre -> lowers st p) ->
  Gate.gate2qasm (st item) = ("MX", i0 :: ids) \/
  (Gate.gate2qasm (st item) = ("MY", i0 :: ids) /\ ids <> []) ->
  to_qasm (mkWorld c st) = (Raise (NameError "idx"), mkWorld c st).
Proof.
  intros Hq Hpre Hitem. unfold to_qasm, bind, get_self. cbn [self].
  rewrite Hq, to_qasm_loop_app. unfold bind.
  rewrite to_qasm_loop_lowers by exact Hpre. cbn [to_qasm_loop].
  unfold bind. cbn [gates].
  assert (Hi : forall locals,
             to_qasm_item item locals (mkWorld c st)
             = (Raise (NameError "idx"), mkWorld c st)).
  { intros [code m]. unfold to_qasm_item, bind, read. cbn [gates].
    destruct Hitem as [->|[-> Hids]]; [reflexivity|].
    destruct ids as [|i1 ids]; [congruence|reflexivity]. }
  rewrite Hi. reflexivity.
Qed.

Lemma to_qasm_NameError_witness :
  let st := Sample.store_of
              [Sample.H 0; Gate.mk "mx" [] [1] None None ("MX", [1]); Sample.H 0] in
  let c := set_queue [0%nat; 1%nat; 2%nat] (__init__ 2) in
  queue c = [0%nat] ++ 1%nat :: [2%nat] /\
  (forall p, p ∈ [0%nat] -> lowers st p) /\
  (Gate.gate2qasm (st 1%nat) = ("MX", 1 :: []) \/
   (Gate.gate2qasm (st 1%nat) = ("MY", 1 :: []) /\ @nil Z <> [])) /\
  to_qasm (mkWorld c st) = (Raise (NameError "idx"), mkWorld c st).
Proof.
  intros st c.
  assert (Hpre : forall p, p ∈ [0%nat] -> lowers st p).
  { intros p Hp. apply list_elem_of_singleton in Hp as ->.
    repeat split; discriminate. }
  assert (Hitem : Gate.gate2qasm (st 1%nat) = ("MX", 1 :: []) \/
                  (Gate.gate2qasm (st 1%nat) = ("MY", 1 :: []) /\ @nil Z <> []))
    by (left; reflexivity).
  split; [reflexivity|]. split; [exact Hpre|]. split; [exact Hitem|].
  exact (to_qasm_NameError c st [0%nat] [2%nat] 1%nat 1 [] eq_refl Hpre Hitem).
Defined.

(** X19. [to_qasm] fails with IndexError on the first gate whose lowering
    has no operand, whatever its opcode, and on a gate that lowers to MY
    with a single operand, when the gates before it lower. *)
Theorem to_qasm_IndexError
    (c : Circuit) (st : Store) (pre post : list ref) (item : ref) :
  queue c = pre ++ item :: post ->
  (forall p, p ∈ pre -> lowers st p) ->
  snd (Gate.gate2qasm (st item)) = [] \/
  (exists i0, Gate.gate2qasm (st item) = ("MY", [i0])) ->
  to_qasm (mkWorld c st) = (Raise IndexError, mkWorld c st).
Proof.
  intros Hq Hpre Hitem. unfold to_qasm, bind, get_self. cbn [self].
  rewrite Hq, to_qasm_loop_app. unfold bind.
  rewrite to_qasm_loop_lowers by exact Hpre. cbn [to_qasm_loop].
  unfold bind. cbn [gates].
  assert (Hi : forall locals,
             to_qasm_item item locals (mkWorld c st)
             = (Raise IndexError, mkWorld c st)).
  { intros [code m]. unfold to_qasm_item, bind, read. cbn [gates].
    destruct Hitem as [Hnil|[i0 ->]]; [|reflexivity].
    destruct (Gate.gate2qasm (st item)) as [gate ids]. cbn [snd] in Hnil. subst ids.
    repeat (destruct (bool_decide _)); reflexivity. }
  rewrite Hi. reflexivity.
Qed.

Lemma to_qasm_IndexError_witness :
  let st := Sample.store_of
              [Sample.H 0; Gate.mk "id" [] [] None None ("id", [])] in
  let c := set_queue [0%nat; 1%nat] (__init__ 2) in
  queue c = [0%nat] ++ 1%nat :: [] /\
  (forall p, p ∈ [0%nat] -> lowers st p) /\
  (snd (Gate.gate2qasm (st 1%nat)) = [] \/
   (exists i0, Gate.gate2qasm (st 1%nat) = ("MY", [i0]))) /\
  to_qasm (mkWorld c st) = (Raise IndexError, mkWorld c st).
Proof.
  intros st c.
  assert (Hpre : forall p, p ∈ [0%nat] -> lowers st p).
  { intros p Hp. apply list_elem_of_singleton in Hp as ->.
    repeat split; discriminate. }
  assert (Hitem : snd (Gate.gate2qasm (st 1%nat)) = [] \/
                  (exists i0, Gate.gate2qasm (st 1%nat) = ("MY", [i0])))
    by (left; reflexivity).
  split; [reflexivity|]. split; [exact Hpre|]. split; [exact Hitem|].
  exact (to_qasm_IndexError c st [0%nat] [] 1%nat eq_refl Hpre Hitem).
Defined.

Lemma to_qasm_item_reads item locals w :
  snd (to_qasm_item item locals w) = w.
Proof.
  destruct locals as [code m]. unfold to_qasm_item, bind, read, index, unbound,
    raise, ret.
  destruct (Gate.gate2qasm (gates w item)) as [gate ids].
  destruct ids as [|i0 [|i1 ids]];
    repeat (destruct (bool_decide _)); reflexivity.
Qed.

Lemma to_qasm_loop_reads items locals w :
  snd (to_qasm_loop items locals w) = w.
Proof.
  revert locals. induction items as [|item items IH]; intros locals;
    cbn [to_qasm_loop]; [reflexivity|].
  unfold bind. pose proof (to_qasm_item_reads item locals w) as H.
  destruct (to_qasm_item item locals w) as [[locals'|e] w1]; cbn [snd] in H; subst w1.
  - apply IH.
  - reflexivity.
Qed.

(** X20. [to_qasm] is read-only: whether it returns a text or raises, the
    circuit and every gate object are as before. *)
Theorem to_qasm_reads (w : World) : snd (to_qasm w) = w.
Proof.
  unfold to_qasm, bind, get_self.
  pose proof (to_qasm_loop_reads (queue (self w))
                (["# Generated by QIBO"] ++ ["OPENQASM 2.0;"]
                 ++ ["include " +:+ dquote +:+ "qelib1.inc" +:+ dquote +:+ ";"]
                 ++ ["qreg q[" +:+ str (nqubits (self w)) +:+ "];"], false) w) as H.
  cbn [app] in *.
  destruct (to_qasm_loop _ _ w) as [[locals|e] w1]; cbn [snd] in *; now subst w1.
Qed.

(** ** The gradient of [InitialState], in general *)

(** X21. For every gradient, the empty one included, the function returns
    one vector that starts with the constant 0 and continues with the
    gradient from index 1 on; its length is the gradient's, except that an
    empty gradient gives a vector of length 1. *)
Theorem initial_state_grad_shape {T Op : Type} (zero : T) (op : Op) (grad : list T) :
  exists v,
    _initial_state_grad zero op grad = [v] /\
    head v = Some zero /\
    drop 1 v = drop 1 grad /\
    length v = Nat.max 1 (length grad).
Proof.
  exists (zero :: drop 1 grad). repeat split.
  destruct grad as [|x grad]; cbn; [reflexivity|].
  rewrite drop_0. reflexivity.
Qed.

(** X22. The gradient map is idempotent: applied to its own result it
    returns that result again. *)
Theorem initial_state_grad_idempotent {T Op : Type} (zero : T) (op : Op)
    (grad v : list T) :
  _initial_state_grad zero op grad = [v] ->
  _initial_state_grad zero op v = [v].
Proof. unfold _initial_state_grad. intros [= <-]. reflexivity. Qed.

Lemma initial_state_grad_idempotent_witness :
  _initial_state_grad 0 tt [5; 7; 9] = [[0; 7; 9]] /\
  _initial_state_grad 0 tt [0; 7; 9] = [[0; 7; 9]].
Proof.
  assert (H : _initial_state_grad 0 tt [5; 7; 9] = [[0; 7; 9]]) by reflexivity.
  split; [exact H|].
  exact (initial_state_grad_idempotent 0 tt [5; 7; 9] [0; 7; 9] H).
Defined.

(** ** The depth of a sum *)

Lemma filter_all_true {A} (f : A -> bool) (l : list A) :
  (forall x, x ∈ l -> f x = true) -> List.filter f l = l.
Proof.
  induction l as [|a l IH]; intros H; cbn [List.filter]; [reflexivity|].
  rewrite (H a) by apply list_elem_of_here.
  f_equal. apply IH. intros x Hx. now apply H, list_elem_of_further.
Qed.

(** X23. For a class whose constructor leaves the queue empty, the depth
    of a sum is at most the sum of the depths of the operands, and equal to
    it when no gate of the two queues is a measurement; the sum has the
    qubit count of the fresh instance. *)
Theorem circuit_addition_depth
    (cls : Z -> Circuit) (c1 c2 R : Circuit) (st st' : Store) :
  queue (cls (nqubits c1)) = [] ->
  _circuit_addition cls c1 c2 st = (Ok R, st') ->
  (depth R <= depth c1 + depth c2)%nat /\
  ((forall g, g ∈ queue c1 ++ queue c2 -> ordinary st g = true) ->
   depth R = (depth c1 + depth c2)%nat) /\
  size R = size (cls (nqubits c1)).
Proof.
  intros Hcls H.
  assert (Hsize : size R = size (cls (nqubits c1))).
  { unfold _circuit_addition in H.
    destruct (bool_decide (nqubits c1 ≠ nqubits c2)); [discriminate|].
    rewrite <- for_each_app in H.
    destruct (for_each add _ _) as [[[]|e] w] eqn:Hloop; [|discriminate].
    injection H as <- <-. apply for_each_add_Ok in Hloop as (_ & Hn & _).
    exact Hn. }
  apply _circuit_addition_Ok in H as (Hq & _). rewrite Hcls in Hq. cbn [app] in Hq.
  unfold depth. rewrite Hq, <- length_app. split; [|split; [|exact Hsize]].
  - apply List.filter_length_le.
  - intros Hall. now rewrite filter_all_true.
Qed.

Lemma _circuit_addition_depth_witness :
  let cls := derived__init__ PyNone in
  let st := Sample.store_of [Sample.H 0; Sample.CNOT 0 1; Sample.H 1] in
  let c1 := set_queue [0%nat; 1%nat] (cls 2) in
  let c2 := set_queue [2%nat] (cls 2) in
  let R := Sample.value c1 (fst (_circuit_addition cls c1 c2 st)) in
  let st' := snd (_circuit_addition cls c1 c2 st) in
  queue (cls (nqubits c1)) = [] /\
  _circuit_addition cls c1 c2 st = (Ok R, st') /\
  depth R = 3%nat /\
  (depth R <= depth c1 + depth c2)%nat /\
  ((forall g, g ∈ queue c1 ++ queue c2 -> ordinary st g = true) ->
   depth R = (depth c1 + depth c2)%nat) /\
  size R = size (cls (nqubits c1)).
Proof.
  intros cls st c1 c2 R st'.
  assert (H : _circuit_addition cls c1 c2 st = (Ok R, st')) by reflexivity.
  split; [reflexivity|]. split; [exact H|]. split; [reflexivity|].
  exact (circuit_addition_depth cls c1 c2 R st st' eq_refl H).
Defined.

(** ** Circuit addition re-submits the queues, and only the queues *)

Lemma for_each_add_ordinary_Ok l c st w' :
  (forall g, g ∈ l -> ordinary st g = true) ->
  for_each add l (mkWorld c st) = (Ok tt, w') ->
  self w' = set_queue (queue c ++ l) c.
Proof.
  revert c st. induction l as [|g l IH]; intros c st Hl H; cbn [for_each] in H.
  - injection H as <-. cbn. rewrite app_nil_r. now destruct c.
  - unfold bind in H.
    destruct (add g (mkWorld c st)) as [[[]|e] [c1 st1]] eqn:Hadd; [|discriminate].
    pose proof (add_Ok_queue _ _ _ _ Hadd) as (_ & _ & Hnames).
    apply add_Ok_inv in Hadd as (_ & _ & _ & [[_ Hw]|[Hname _]]).
    + injection Hw as -> ->. apply IH in H.
      * rewrite H. unfold set_queue. cbn. now rewrite <- app_assoc.
      * intros g' Hg'. rewrite (ordinary_same_names st) by exact Hnames.
        now apply Hl, list_elem_of_further.
    + specialize (Hl g (list_elem_of_here _ _)). unfold ordinary in Hl.
      rewrite bool_decide_true in Hl by exact Hname. discriminate.
Qed.

Lemma for_each_add_ordinary_Raise l c st e :
  (forall g, g ∈ l -> ordinary st g = true) ->
  fst (for_each add l (mkWorld c st)) = Raise e ->
  forall name, e <> KeyError_register name.
Proof.
  revert c st. induction l as [|g l IH]; intros c st Hl; cbn [for_each].
  - discriminate.
  - unfold bind.
    destruct (add g (mkWorld c st)) as [[[]|e'] [c1 st1]] eqn:Hadd.
    + apply add_Ok_queue in Hadd as (_ & _ & Hnames). apply IH.
      intros g' Hg'. rewrite (ordinary_same_names st) by exact Hnames.
      now apply Hl, list_elem_of_further.
    + cbn [fst]. intros [= ->].
      apply add_Raise_inv in Hadd
        as [(-> & _)|[(-> & _)|[(m & -> & _)|[(q & -> & _)
            |(name & _ & _ & Hname & _)]]]]; try discriminate.
      specialize (Hl g (list_elem_of_here _ _)). unfold ordinary in Hl.
      rewrite bool_decide_true in Hl by exact Hname. discriminate.
Qed.

(** C1, as the code has it.  [cls] is the class the addition constructs:
    [BaseCircuit] itself for [A + B] (then [cls] is [__init__]), or a class
    deriving from it; its constructor gives a circuit of the requested
    qubit count with an empty queue, no measurement gate and no register.
    [A] and [B] have equal [nqubits] and queues without measurement gates,
    as [add] builds them.  Then:
    - the addition reads [nqubits] and [queue] of its operands and nothing
      else: changing the measurement gates and the registers of [A] and
      [B] does not change its outcome;
    - it re-submits through [add], to a fresh instance of [cls], the gates
      of the queue of [A] and then the gates of the queue of [B];
    - it never fails with DuplicateRegisterNameError, whatever register
      names [A] and [B] have in common;
    - whenever it returns, the result is the fresh instance with its queue
      set to the queue of [A] followed by the queue of [B]: no measurement
      gate and no register;
    - it does return when the fresh instance passes the frozen guard of
      [add] and every gate has a qubit count unset or equal to [nqubits]. *)
Theorem circuit_addition_replays_queues
    (cls : Z -> Circuit) (A B : Circuit) (st : Store) :
  (forall n, nqubits (cls n) = n /\ queue (cls n) = [] /\
             measurement_gate (cls n) = None /\ measurement_sets (cls n) = ∅) ->
  nqubits A = nqubits B ->
  (forall g, g ∈ queue A ++ queue B -> ordinary st g = true) ->
  (forall gA mA gB mB,
     _circuit_addition cls
       (set_measurement_sets mA (set_measurement_gate gA A))
       (set_measurement_sets mB (set_measurement_gate gB B)) st
     = _circuit_addition cls A B st) /\
  _circuit_addition cls A B st
  = (let r := for_each add (queue A ++ queue B) (mkWorld (cls (nqubits A)) st) in
     (match fst r with Ok _ => Ok (self (snd r)) | Raise e => Raise e end,
      gates (snd r))) /\
  (forall e, fst (_circuit_addition cls A B st) = Raise e ->
             kind_of e <> Some DuplicateRegisterNameError) /\
  (forall R st', _circuit_addition cls A B st = (Ok R, st') ->
     R = set_queue (queue A ++ queue B) (cls (nqubits A)) /\
     nqubits R = nqubits A /\
     queue R = queue A ++ queue B /\
     measurement_gate R = None /\
     measurement_sets R = ∅) /\
  (_final_state (cls (nqubits A)) = Some PyNone ->
   (forall g m, g ∈ queue A ++ queue B ->
                Gate._nqubits (st g) = Some m -> m = nqubits A) ->
   exists R st', _circuit_addition cls A B st = (Ok R, st')).
Proof.
  intros Hcls Hn Hord.
  destruct (Hcls (nqubits A)) as (Hcn & Hcq & Hcg & Hcs).
  assert (Hreplay : _circuit_addition cls A B st
    = (let r := for_each add (queue A ++ queue B) (mkWorld (cls (nqubits A)) st) in
       (match fst r with Ok _ => Ok (self (snd r)) | Raise e => Raise e end,
        gates (snd r)))).
  { unfold _circuit_addition.
    rewrite bool_decide_false by (intros H; now apply H).
    rewrite <- for_each_app. cbn zeta.
    now destruct (for_each add _ _) as [[[]|e] w]. }
  split; [|split; [exact Hreplay|split; [|split]]].
  - intros gA mA gB mB. reflexivity.
  - intros e. rewrite Hreplay. cbn zeta.
    destruct (for_each add _ _) as [[[]|e'] w] eqn:Hloop; cbn [fst]; [discriminate|].
    intros [= ->] Hkind.
    assert (Hl : fst (for_each add (queue A ++ queue B)
                        (mkWorld (cls (nqubits A)) st)) = Raise e)
      by now rewrite Hloop.
    pose proof (for_each_add_ordinary_Raise _ _ _ _ Hord Hl) as Hno.
    destruct e; try discriminate Hkind. now apply (Hno name).
  - intros R st'. rewrite Hreplay. cbn zeta.
    destruct (for_each add _ _) as [[[]|e'] w] eqn:Hloop; cbn [fst snd];
      [|discriminate].
    intros [= <- <-].
    apply for_each_add_ordinary_Ok in Hloop; [|exact Hord].
    rewrite Hcq in Hloop. cbn [app] in Hloop. rewrite Hloop.
    cbn. now repeat split.
  - intros Hfs Hcount. rewrite Hreplay.
    rewrite for_each_add_ordinary.
    + cbn. eauto.
    + exact Hfs.
    + exact Hcg.
    + intros g Hg. split; [now apply Hord|].
      rewrite Hcn. intros m Hm. now apply (Hcount g m).
Qed.

Lemma circuit_addition_replays_queues_witness :
  let cls := derived__init__ PyNone in
  let st0 := Sample.store_of
               [Sample.H 0; Sample.CNOT 0 1;
                Sample.M 1 (Some "a"); Sample.M 1 (Some "a")] in
  let wa := snd (for_each add [0%nat; 2%nat] (mkWorld (cls 2) st0)) in
  let wb := snd (for_each add [1%nat; 3%nat] (mkWorld (cls 2) (gates wa))) in
  let A := self wa in
  let B := self wb in
  let st := gates wb in
  measurement_sets A !! "a" = Some (QSet {[1]}) /\
  measurement_sets B !! "a" = Some (QSet {[1]}) /\
  (forall n, nqubits (cls n) = n /\ queue (cls n) = [] /\
             measurement_gate (cls n) = None /\ measurement_sets (cls n) = ∅) /\
  nqubits A = nqubits B /\
  (forall g, g ∈ queue A ++ queue B -> ordinary st g = true) /\
  fst (_circuit_addition cls A B st)
  = Ok (set_queue [0%nat; 1%nat] (cls 2)) /\
  (forall gA mA gB mB,
     _circuit_addition cls
       (set_measurement_sets mA (set_measurement_gate gA A))
       (set_measurement_sets mB (set_measurement_gate gB B)) st
     = _circuit_addition cls A B st) /\
  _circuit_addition cls A B st
  = (let r := for_each add (queue A ++ queue B) (mkWorld (cls (nqubits A)) st) in
     (match fst r with Ok _ => Ok (self (snd r)) | Raise e => Raise e end,
      gates (snd r))) /\
  (forall e, fst (_circuit_addition cls A B st) = Raise e ->
             kind_of e <> Some DuplicateRegisterNameError) /\
  (forall R st', _circuit_addition cls A B st = (Ok R, st') ->
     R = set_queue (queue A ++ queue B) (cls (nqubits A)) /\
     nqubits R = nqubits A /\
     queue R = queue A ++ queue B /\
     measurement_gate R = None /\
     measurement_sets R = ∅) /\
  (_final_state (cls (nqubits A)) = Some PyNone ->
   (forall g m, g ∈ queue A ++ queue B ->
                Gate._nqubits (st g) = Some m -> m = nqubits A) ->
   exists R st', _circuit_addition cls A B st = (Ok R, st')).
Proof.
  intros cls st0 wa wb A B st.
  assert (Hcls : forall n, nqubits (cls n) = n /\ queue (cls n) = [] /\
             measurement_gate (cls n) = None /\ measurement_sets (cls n) = ∅)
    by (intros n; repeat split).
  assert (Hord : forall g, g ∈ queue A ++ queue B -> ordinary st g = true).
  { intros g Hg. change (g ∈ [0%nat; 1%nat]) in Hg.
    apply list_elem_of_In in Hg. cbn in Hg.
    destruct Hg as [<-|[<-|[]]]; reflexivity. }
  split; [reflexivity|]. split; [reflexivity|]. split; [exact Hcls|].
  split; [reflexivity|]. split; [exact Hord|]. split; [reflexivity|].
  exact (circuit_addition_replays_queues cls A B st Hcls eq_refl Hord).
Defined.
